(** * County-data API: shallow embedding of [api/index.py]

    The development follows the layout of the Flask module: Python values
    and exceptions, the zip pattern, [validate_payload], the SQL query of
    [lookup_county_data] over the two tables of [data.db], the view
    [county_data] and the two error handlers.

    Python [str] values are Rocq strings whose characters are read as code
    points below 256; on that range the regex class [\d] is exactly the ten
    ASCII digits. *)

From Stdlib Require Import ZArith List Ascii String Lia.
From stdpp Require Import gmap strings list fin_maps sorting.

Set Warnings "-register-all".
Local Open Scope string_scope.
#[local] Arguments String.append !_ _ / : simpl nomatch.

(** ** Python values, exceptions and the effect monad *)

Module Python.

(** What [request.get_json(silent=True)] can return: [None] (also for a
    body that does not parse), or a decoded JSON document. Floats are kept
    as a decimal mantissa and exponent; the program never inspects them. *)
Inductive pyval : Type :=
  | PNone
  | PBool (b : bool)
  | PInt (z : Z)
  | PFloat (mantissa exponent : Z)
  | PStr (s : string)
  | PList (l : list pyval)
  | PDict (d : gmap string pyval).

(** [type(v).__name__], as it appears in an [AttributeError] message. *)
Definition type_name (v : pyval) : string :=
  match v with
  | PNone => "NoneType"
  | PBool _ => "bool"
  | PInt _ => "int"
  | PFloat _ _ => "float"
  | PStr _ => "str"
  | PList _ => "list"
  | PDict _ => "dict"
  end.

(** [d.get(k)]: the bound value, [None] when the key is absent. *)
Definition dict_get (d : gmap string pyval) (k : string) : pyval :=
  default PNone (d !! k).

(** [v is None] *)
Definition is_none (v : pyval) : bool :=
  match v with PNone => true | _ => false end.

(** [isinstance(v, str)], returning the string when it holds. *)
Definition isinstance_str (v : pyval) : option string :=
  match v with PStr s => Some s | _ => None end.

(** [v == s] for a [str] literal [s]. *)
Definition eq_str (v : pyval) (s : string) : bool :=
  match v with PStr t => String.eqb t s | _ => false end.

(** werkzeug's [HTTPException] subclasses raised by the module; both are
    raised with a description and no attached response. *)
Inductive HTTPException : Type :=
  | BadRequest (description : string)
  | NotFound (description : string).

Definition code (e : HTTPException) : Z :=
  match e with BadRequest _ => 400 | NotFound _ => 404 end.

Definition description (e : HTTPException) : string :=
  match e with BadRequest d => d | NotFound d => d end.

(** Exceptions that can leave the view function. *)
Inductive exn : Type :=
  | Http (e : HTTPException)
  | AttributeError (msg : string)      (* [.get] on a non-dict payload *)
  | SqliteError (msg : string).        (* raised by the sqlite3 driver *)

(** [str(error)] for the exceptions that are not HTTP exceptions. *)
Definition str (e : exn) : string :=
  match e with
  | Http h => description h
  | AttributeError m => m
  | SqliteError m => m
  end.

(** Calls with an effect outside the function, in program order. *)
Inductive call : Type :=
  | ValidatePayload
  | PathExists
  | Connect
  | Execute (zip measure : string).

Inductive outcome (A : Type) : Type :=
  | Return (a : A)
  | Raise (e : exn).
Arguments Return {A} a.
Arguments Raise {A} e.

(** Computations that may raise and that log their calls. *)
Definition M (A : Type) : Type := list call -> list call * outcome A.

Definition ret {A} (a : A) : M A := fun log => (log, Return a).
Definition raise {A} (e : exn) : M A := fun log => (log, Raise e).
Definition tick (c : call) : M unit := fun log => ((log ++ [c])%list, Return tt).
Definition lift {A} (o : outcome A) : M A := fun log => (log, o).
Definition bind {A B} (m : M A) (k : A -> M B) : M B :=
  fun log =>
    match m log with
    | (log', Return a) => k a log'
    | (log', Raise e) => (log', Raise e)
    end.

End Python.
Import Python.

#[global] Instance M_ret : MRet M := @ret.
#[global] Instance M_bind : MBind M := fun A B k m => bind m k.

(** ** The zip pattern *)

Module Re.

(** [\d] on code points below 256. *)
Definition is_digit (c : ascii) : bool :=
  (48 <=? nat_of_ascii c)%nat && (nat_of_ascii c <=? 57)%nat.

(** [\d{n}] at the head of [s]: the rest of the subject after [n] digits. *)
Fixpoint digits (n : nat) (s : string) : option string :=
  match n with
  | O => Some s
  | S n' =>
      match s with
      | String c rest => if is_digit c then digits n' rest else None
      | EmptyString => None
      end
  end.

(** [$] without [re.MULTILINE]: at the end of the subject, or just before
    a newline that is its last character. *)
Definition dollar (s : string) : bool :=
  match s with
  | EmptyString => true
  | String c EmptyString => Ascii.eqb c "010"%char
  | _ => false
  end.

End Re.

(** [ZIP_PATTERN = re.compile(r"^\d{5}$")], used through [.match], which
    anchors at the start of the subject. *)
Definition ZIP_PATTERN_match (s : string) : bool :=
  match Re.digits 5 s with
  | Some rest => Re.dollar rest
  | None => false
  end.

(** ** Validation *)

Definition ALLOWED_MEASURES : gset string :=
  {[ "Violent crime rate";
     "Unemployment";
     "Children in poverty";
     "Diabetic screening";
     "Mammography screening";
     "Preventable hospital stays";
     "Uninsured";
     "Sexually transmitted infections";
     "Physical inactivity";
     "Adult obesity";
     "Premature Death";
     "Daily fine particulate matter" ]}.

(** The dict [{"zip": ..., "measure_name": ...}] returned on success. *)
Record ValidatedRequest : Type := {
  zip : string;
  measure_name : string
}.

Definition validate_payload (payload : gmap string pyval) : outcome ValidatedRequest :=
  let zip_code := dict_get payload "zip" in
  let measure := dict_get payload "measure_name" in
  if is_none zip_code || is_none measure then
    Raise (Http (BadRequest "Both 'zip' and 'measure_name' are required"))
  else
    match isinstance_str zip_code with
    | None => Raise (Http (BadRequest "zip must be a 5-digit string"))
    | Some z =>
        if negb (ZIP_PATTERN_match z) then
          Raise (Http (BadRequest "zip must be a 5-digit string"))
        else
          match isinstance_str measure with
          | None => Raise (Http (BadRequest "measure_name must be a string"))
          | Some m =>
              if bool_decide (m ∉ ALLOWED_MEASURES) then
                Raise (Http (BadRequest "measure_name must be one of the documented measures"))
              else
                Return {| zip := z; measure_name := m |}
          end
    end.

(** ** The store: two tables of [data.db] and the lookup query *)

Module Sql.

(** A column value. Every column of both tables is declared [TEXT] by the
    loader ([create_table] in [csv_to_sqlite.py]), so a stored value is
    [NULL] or a text. *)
Definition value : Type := option string.

(** SQL's three-valued truth: [None] is the unknown of a comparison
    with [NULL]. *)
Definition tri : Type := option bool.

Definition eq (a b : value) : tri :=
  match a, b with
  | Some x, Some y => Some (String.eqb x y)
  | _, _ => None
  end.

Definition is_not_null (a : value) : tri :=
  match a with Some _ => Some true | None => Some false end.

Definition and3 (p q : tri) : tri :=
  match p, q with
  | Some false, _ | _, Some false => Some false
  | Some true, Some true => Some true
  | _, _ => None
  end.

Definition or3 (p q : tri) : tri :=
  match p, q with
  | Some true, _ | _, Some true => Some true
  | Some false, Some false => Some false
  | _, _ => None
  end.

(** A row passes [ON] or [WHERE] only when the condition is true. *)
Definition holds (p : tri) : bool :=
  match p with Some true => true | _ => false end.

(** [ORDER BY ... ASC] on one column: [NULL] first, texts in the order of
    their code points (the [BINARY] collation). *)
Definition compare (a b : value) : comparison :=
  match a, b with
  | None, None => Eq
  | None, Some _ => Lt
  | Some _, None => Gt
  | Some x, Some y => String.compare x y
  end.

(** The fourteen columns selected from [county_health_rankings AS chr]. *)
Record HealthRecord : Type := {
  chr_state : value;
  chr_county : value;
  chr_state_code : value;
  chr_county_code : value;
  chr_year_span : value;
  chr_measure_name : value;
  chr_measure_id : value;
  chr_numerator : value;
  chr_denominator : value;
  chr_raw_value : value;
  chr_confidence_interval_lower_bound : value;
  chr_confidence_interval_upper_bound : value;
  chr_data_release_year : value;
  chr_fipscode : value
}.

(** The columns of [zip_county AS zc] the query reads. *)
Record ZipCounty : Type := {
  zc_zip : value;
  zc_county : value;
  zc_state_abbreviation : value;
  zc_county_code : value
}.

Record database : Type := {
  county_health_rankings : list HealthRecord;
  zip_county : list ZipCounty
}.

#[global] Instance HealthRecord_eq_dec : EqDecision HealthRecord.
Proof. solve_decision. Defined.

(** [ON zc.zip = :zip AND ((chr.fipscode IS NOT NULL AND chr.fipscode =
    zc.county_code) OR (chr.county = zc.county AND chr.state =
    zc.state_abbreviation))] *)
Definition on_clause (zip : string) (chr : HealthRecord) (zc : ZipCounty) : tri :=
  and3 (eq (zc_zip zc) (Some zip))
       (or3 (and3 (is_not_null (chr_fipscode chr))
                  (eq (chr_fipscode chr) (zc_county_code zc)))
            (and3 (eq (chr_county chr) (zc_county zc))
                  (eq (chr_state chr) (zc_state_abbreviation zc)))).

(** [WHERE chr.measure_name = :measure] *)
Definition where_clause (measure : string) (chr : HealthRecord) : tri :=
  eq (chr_measure_name chr) (Some measure).

(** [ORDER BY chr.data_release_year ASC, chr.year_span ASC] *)
Definition order_key (r1 r2 : HealthRecord) : comparison :=
  match compare (chr_data_release_year r1) (chr_data_release_year r2) with
  | Eq => compare (chr_year_span r1) (chr_year_span r2)
  | c => c
  end.

Definition key_le (r1 r2 : HealthRecord) : Prop := order_key r1 r2 <> Gt.

#[global] Instance key_le_dec : RelDecision key_le.
Proof. intros r1 r2. unfold key_le. solve_decision. Defined.

(** The statement of [lookup_county_data], clause by clause: the joined
    pairs, the [WHERE] filter, the projection on [chr]'s columns,
    [DISTINCT], and the ordering. *)
Definition inner_join (db : database) (zip : string) : list (HealthRecord * ZipCounty) :=
  List.filter (fun p => holds (on_clause zip (fst p) (snd p)))
              (list_prod (county_health_rankings db) (zip_county db)).

Definition query (db : database) (zip measure : string) : list HealthRecord :=
  merge_sort key_le
    (remove_dups
       (List.map fst
          (List.filter (fun p => holds (where_clause measure (fst p)))
                       (inner_join db zip)))).

End Sql.
Import Sql.

(** ** The deployment: where the store lives and what is there *)

(** What is at [DB_PATH] when the file exists: a file the driver cannot
    open, a file whose query the driver rejects (not a database, a table
    missing), or the two tables. The texts are the driver's own messages. *)
Inductive store_file : Type :=
  | Unopenable (driver_message : string)
  | Malformed (driver_message : string)
  | Database (db : database).

Record deployment : Type := {
  DB_PATH : string;
  data_db : option store_file      (* [None]: no file at [DB_PATH] *)
}.

(** ** [api/index.py] *)

Definition get_connection (w : deployment) : M store_file :=
  _ ← tick PathExists;
  match data_db w with
  | None => raise (Http (NotFound ("Database not found at " ++ DB_PATH w)))
  | Some file =>
      _ ← tick Connect;
      match file with
      | Unopenable msg => raise (SqliteError msg)
      | _ => mret file
      end
  end.

(** [connection.execute(query, {...}).fetchall()] *)
Definition execute (connection : store_file) (zip_code measure : string) : M (list HealthRecord) :=
  _ ← tick (Execute zip_code measure);
  match connection with
  | Database db => mret (query db zip_code measure)
  | Malformed msg | Unopenable msg => raise (SqliteError msg)
  end.

Definition lookup_county_data (w : deployment) (zip_code measure : string) : M (list HealthRecord) :=
  connection ← get_connection w;
  rows ← execute connection zip_code measure;
  mret rows.

(** The two shapes [jsonify] is given: [{"error": text}] and the list of
    record dicts. *)
Inductive body : Type :=
  | ErrorObject (error : string)
  | RecordArray (records : list HealthRecord).

Record Response : Type := {
  status_code : Z;
  json : body
}.

(** [HTTPStatus(error.code).phrase] for the two classes raised here. *)
Definition phrase (error : HTTPException) : string :=
  match error with
  | BadRequest _ => "Bad Request"
  | NotFound _ => "Not Found"
  end.

(** Python's [a or b] on strings: [b] when [a] is empty. *)
Definition str_or (a b : string) : string :=
  match a with EmptyString => b | _ => a end.

Definition handle_http_exception (error : HTTPException) : Response :=
  let description :=
    if (code error =? 0)%Z then "Unknown error"
    else str_or (description error) (phrase error) in
  {| status_code := if (code error =? 0)%Z then 500 else code error;
     json := ErrorObject description |}.

Definition handle_unexpected_exception (error : exn) : Response :=
  {| status_code := 500;
     json := ErrorObject (str_or (str error) "Internal server error") |}.

Definition county_data (w : deployment) (payload : pyval) : M Response :=
  match payload with
  | PNone => raise (Http (BadRequest "Request body must be JSON"))
  | PDict d =>
      if eq_str (dict_get d "coffee") "teapot" then
        mret {| status_code := 418;
                json := ErrorObject "Request rejected: I'm a teapot." |}
      else
        _ ← tick ValidatePayload;
        validated ← lift (validate_payload d);
        records ← lookup_county_data w (zip validated) (measure_name validated);
        match records with
        | [] => raise (Http (NotFound "No matching records found"))
        | _ => mret {| status_code := 200; json := RecordArray records |}
        end
  | other =>
      raise (AttributeError ("'" ++ type_name other ++ "' object has no attribute 'get'"))
  end.

(** [APP] serving one POST to [/county_data]: the view runs, and what it
    raises goes to the handler registered for its class. *)
Definition APP (w : deployment) (payload : pyval) : list call * Response :=
  match county_data w payload [] with
  | (log, Return response) => (log, response)
  | (log, Raise (Http error)) => (log, handle_http_exception error)
  | (log, Raise error) => (log, handle_unexpected_exception error)
  end.

(** ** Statements compared with the code *)

(** A record matches a mapping row for [(zip, measure)]: the mapping is a
    row of the zip, the record is tied to it either through [code_column]
    (a non-null value equal to the mapping's county code) or through the
    pair of county name and state abbreviation, and the record is of the
    measure. The query of [lookup_county_data] reads the record's
    [fipscode] as [code_column]. *)
Definition matches (code_column : HealthRecord -> value) (zip measure : string)
    (chr : HealthRecord) (zc : ZipCounty) : Prop :=
  zc_zip zc = Some zip ∧
  ((∃ c, code_column chr = Some c ∧ zc_county_code zc = Some c) ∨
   (∃ n s, chr_county chr = Some n ∧ zc_county zc = Some n ∧
           chr_state chr = Some s ∧ zc_state_abbreviation zc = Some s)) ∧
  chr_measure_name chr = Some measure.

(** The rows a lookup returns, when a record is tied to a mapping row as
    [matches code_column] says. *)
Definition returns_the_matches (code_column : HealthRecord -> value)
    (db : database) (zip measure : string) (rows : list HealthRecord) : Prop :=
  ∀ r, r ∈ rows ↔
       r ∈ county_health_rankings db ∧
       ∃ zc, zc ∈ zip_county db ∧ matches code_column zip measure r zc.

(** A string of exactly five ASCII digits. *)
Definition five_ascii_digits (s : string) : bool :=
  (String.length s =? 5)%nat && forallb Re.is_digit (list_ascii_of_string s).

(** [needle in hay] *)
Definition contains (needle hay : string) : bool :=
  match String.index 0 needle hay with Some _ => true | None => false end.

(** The error text of a response, when it is an error object. *)
Definition error_message (r : Response) : option string :=
  match json r with ErrorObject msg => Some msg | RecordArray _ => None end.

(** The messages the module raises or returns as literals. *)
Definition literal_messages : list string :=
  [ "Request body must be JSON";
    "Request rejected: I'm a teapot.";
    "Both 'zip' and 'measure_name' are required";
    "zip must be a 5-digit string";
    "measure_name must be a string";
    "measure_name must be one of the documented measures";
    "No matching records found" ].

(** What the view raises when the query ran and found nothing, as served. *)
Definition no_match_response : Response :=
  handle_http_exception (NotFound "No matching records found").

(** ** Sample data *)

Definition newline : string := String "010"%char EmptyString.

(** A [county_health_rankings] row of Middlesex County, Massachusetts. *)
Definition middlesex (year_span measure release_year : string) : HealthRecord :=
  {| chr_state := Some "MA";
     chr_county := Some "Middlesex County";
     chr_state_code := Some "25";
     chr_county_code := Some "17";
     chr_year_span := Some year_span;
     chr_measure_name := Some measure;
     chr_measure_id := Some "11";
     chr_numerator := None;
     chr_denominator := None;
     chr_raw_value := Some "0.23";
     chr_confidence_interval_lower_bound := Some "0.22";
     chr_confidence_interval_upper_bound := Some "0.24";
     chr_data_release_year := Some release_year;
     chr_fipscode := Some "25017" |}.

(** A [zip_county] row sending a zip to Middlesex County under [name]. *)
Definition to_middlesex (zip_code name : string) : ZipCounty :=
  {| zc_zip := Some zip_code;
     zc_county := Some name;
     zc_state_abbreviation := Some "MA";
     zc_county_code := Some "25017" |}.

(** One zip listed twice for the county, whose records therefore match it
    by code and by name, through either row. *)
Definition cambridge_db : database :=
  {| county_health_rankings :=
       [ middlesex "2010" "Adult obesity" "2014";
         middlesex "2009" "Adult obesity" "2013";
         middlesex "2009" "Unemployment" "2013" ];
     zip_county :=
       [ to_middlesex "02138" "Middlesex County";
         to_middlesex "02138" "Middlesex County" ] |}.

(** The zip's mapping row spells the county without its suffix, so the
    record is tied to it by [fipscode] alone. *)
Definition short_name_db : database :=
  {| county_health_rankings := [ middlesex "2010" "Adult obesity" "2014" ];
     zip_county := [ to_middlesex "02138" "Middlesex" ] |}.

Definition deployed (db : database) : deployment :=
  {| DB_PATH := "/srv/app/data.db"; data_db := Some (Database db) |}.

Definition not_deployed : deployment :=
  {| DB_PATH := "/srv/app/data.db"; data_db := None |}.

Definition request (zip_code measure : string) : pyval :=
  PDict {[ "zip" := PStr zip_code; "measure_name" := PStr measure ]}.

(** A record with no usable join key: no [fipscode] and no county. *)
Definition unkeyed : HealthRecord :=
  {| chr_state := Some "MA";
     chr_county := None;
     chr_state_code := Some "25";
     chr_county_code := Some "17";
     chr_year_span := Some "2010";
     chr_measure_name := Some "Adult obesity";
     chr_measure_id := Some "11";
     chr_numerator := None;
     chr_denominator := None;
     chr_raw_value := Some "0.23";
     chr_confidence_interval_lower_bound := None;
     chr_confidence_interval_upper_bound := None;
     chr_data_release_year := Some "2014";
     chr_fipscode := None |}.

(** ** [csv_to_sqlite.py]: the loader *)

Module CsvToSqlite.

Local Open Scope N_scope.
Local Open Scope list_scope.

(** The loader reads names from files that may open with a byte-order
    mark, so its strings are sequences of code points of any size. *)
Definition ustr : Type := list N.

(** A literal of the source, as code points. *)
Definition u (s : string) : ustr := List.map N_of_ascii (list_ascii_of_string s).

Definition BOM : N := 65279.        (* U+FEFF *)
Definition LF : N := 10.            (* the newline *)
Definition QUESTION_MARK : N := 63.

(** The code points [str.strip()] removes: those [str.isspace()] holds of. *)
Definition is_space (c : N) : bool :=
  ((9 <=? c) && (c <=? 13)) || ((28 <=? c) && (c <=? 32)) ||
  (c =? 133) || (c =? 160) || (c =? 5760) ||
  ((8192 <=? c) && (c <=? 8202)) || (c =? 8232) || (c =? 8233) ||
  (c =? 8239) || (c =? 8287) || (c =? 12288).

(** [s.lstrip(...)]: drop the leading code points that satisfy [p]. *)
Fixpoint lstrip (p : N -> bool) (s : ustr) : ustr :=
  match s with
  | c :: rest => if p c then lstrip p rest else s
  | [] => []
  end.

Definition rstrip (p : N -> bool) (s : ustr) : ustr :=
  reverse (lstrip p (reverse s)).

(** [s.strip()] *)
Definition strip (s : ustr) : ustr := rstrip is_space (lstrip is_space s).

(** [", ".join(parts)] and the like. *)
Fixpoint join (sep : ustr) (parts : list ustr) : ustr :=
  match parts with
  | [] => []
  | [p] => p
  | p :: rest => p ++ sep ++ join sep rest
  end.

(** [a-z_] and [a-z0-9_] *)
Definition is_ident_start (c : N) : bool :=
  ((97 <=? c) && (c <=? 122)) || (c =? 95).

Definition is_ident_char (c : N) : bool :=
  is_ident_start c || ((48 <=? c) && (c <=? 57)).

(** [$] without [re.MULTILINE]: the end of the subject, or just before a
    newline that ends it. *)
Definition dollar (s : ustr) : bool :=
  match s with
  | [] => true
  | [c] => (c =? LF)
  | _ => false
  end.

(** [VALID_IDENTIFIER = re.compile(r"[a-z_][a-z0-9_]*$")], used through
    [.match]. The star takes every [a-z0-9_] it meets; giving one back
    would leave [$] in front of that character, where it cannot hold, so
    the match is decided after the longest run. *)
Definition VALID_IDENTIFIER_match (s : ustr) : bool :=
  match s with
  | c :: rest => is_ident_start c && dollar (lstrip is_ident_char rest)
  | [] => false
  end.

Inductive result (A : Type) : Type :=
  | Ok (a : A)
  | ValueError (msg : ustr).
Arguments Ok {A} a.
Arguments ValueError {A} msg.

(** What the loader asks of the connection, in program order. *)
Inductive db_call : Type :=
  | ExecuteScript (sql : ustr)
  | ExecuteMany (sql : ustr) (rows : list (list ustr))
  | Commit.

Section WithLower.

(** [str.lower()], whose table of cased letters lives in the Python
    runtime. *)
Variable lower : ustr -> ustr.

Definition normalize_identifier (value : ustr) : ustr :=
  lower (lstrip (N.eqb BOM) (strip value)).

Definition validate_identifier (raw_value kind : ustr) : result ustr :=
  let value := normalize_identifier raw_value in
  match value with
  | [] => ValueError (kind ++ u " '" ++ raw_value ++ u "' is empty after stripping whitespace")
  | _ =>
      if negb (VALID_IDENTIFIER_match value) then
        ValueError (kind ++ u " '" ++ raw_value ++ u "' is not a valid SQL identifier")
      else Ok value
  end.

(** [[validate_identifier(col, "Column name") for col in header]]: the
    first failure ends the comprehension. *)
Fixpoint validate_columns (header : list ustr) : result (list ustr) :=
  match header with
  | [] => Ok []
  | col :: rest =>
      match validate_identifier col (u "Column name") with
      | ValueError msg => ValueError msg
      | Ok c =>
          match validate_columns rest with
          | ValueError msg => ValueError msg
          | Ok cs => Ok (c :: cs)
          end
      end
  end.

End WithLower.

(** The script [create_table] hands to [executescript]. *)
Definition create_table (table_name : ustr) (columns : list ustr) : db_call :=
  let column_definitions := join (u ", ") (List.map (fun col => col ++ u " TEXT") columns) in
  let drop_sql := u "DROP TABLE IF EXISTS " ++ table_name ++ u ";" in
  let create_sql :=
    u "CREATE TABLE " ++ table_name ++ u " (" ++ column_definitions ++ u ");" in
  ExecuteScript (drop_sql ++ [LF] ++ create_sql).

(** The statement [insert_rows] hands to [executemany], with the rows as
    its bound parameters. *)
Definition insert_sql (table_name : ustr) (columns : list ustr) : ustr :=
  let columns_joined := join (u ", ") columns in
  let placeholders := join (u ", ") (List.map (fun _ => u "?") columns) in
  u "INSERT INTO " ++ table_name ++ u " (" ++ columns_joined ++
  u ") VALUES (" ++ placeholders ++ u ");".

Definition insert_rows (table_name : ustr) (columns : list ustr)
    (rows : list (list ustr)) : db_call :=
  ExecuteMany (insert_sql table_name columns) rows.

(** [load_csv_to_sqlite], given the stem of the CSV path and the records
    [csv.reader] yields from the file: the calls made on the connection,
    or the [ValueError] raised before any is made. *)
Definition load_csv_to_sqlite (lower : ustr -> ustr) (stem : ustr)
    (records : list (list ustr)) : result (list db_call) :=
  match validate_identifier lower stem (u "Table name") with
  | ValueError msg => ValueError msg
  | Ok table_name =>
      match records with
      | [] => ValueError (u "CSV file is empty")
      | header :: rows =>
          match validate_columns lower header with
          | ValueError msg => ValueError msg
          | Ok columns =>
              Ok [ create_table table_name columns;
                   insert_rows table_name columns rows;
                   Commit ]
          end
      end
  end.

(** An identifier that is safe to splice into SQL text: a lowercase ASCII
    letter or underscore, then lowercase ASCII letters, digits and
    underscores. *)
Definition safe_identifier (s : ustr) : bool :=
  match s with
  | c :: rest => is_ident_start c && forallb is_ident_char rest
  | [] => false
  end.

(** Lowercasing of the ASCII capitals alone, one function that meets what
    the properties below ask of [str.lower()]. *)
Definition ascii_lower (s : ustr) : ustr :=
  List.map (fun c => if (65 <=? c) && (c <=? 90) then c + 32 else c) s.

End CsvToSqlite.

(** * Properties *)

(** ** The ordering of the result rows *)

Section Ordering.

Lemma ascii_compare_refl c : Ascii.compare c c = Eq.
Proof. unfold Ascii.compare. apply N.compare_refl. Qed.

Lemma ascii_compare_lt_trans a b c :
  Ascii.compare a b = Lt -> Ascii.compare b c = Lt -> Ascii.compare a c = Lt.
Proof.
  unfold Ascii.compare. rewrite !N.compare_lt_iff. lia.
Qed.

Lemma string_compare_refl s : String.compare s s = Eq.
Proof.
  induction s as [|c s IH]; simpl; [reflexivity|].
  now rewrite ascii_compare_refl.
Qed.

Lemma string_compare_lt_trans s1 : forall s2 s3,
  String.compare s1 s2 = Lt -> String.compare s2 s3 = Lt -> String.compare s1 s3 = Lt.
Proof.
  induction s1 as [|a s1 IH]; intros [|b s2] [|c s3]; simpl; try congruence.
  destruct (Ascii.compare a b) eqn:Hab; try discriminate;
    destruct (Ascii.compare b c) eqn:Hbc; try discriminate; intros H12 H23.
  - apply Ascii.compare_eq_iff in Hab, Hbc. subst.
    rewrite ascii_compare_refl. eauto.
  - apply Ascii.compare_eq_iff in Hab. subst. now rewrite Hbc.
  - apply Ascii.compare_eq_iff in Hbc. subst. now rewrite Hab.
  - now rewrite (ascii_compare_lt_trans _ _ _ Hab Hbc).
Qed.

Lemma compare_refl (a : value) : Sql.compare a a = Eq.
Proof. destruct a; simpl; [apply string_compare_refl | reflexivity]. Qed.

Lemma compare_eq (a b : value) : Sql.compare a b = Eq -> a = b.
Proof.
  destruct a, b; simpl; try discriminate; [|reflexivity].
  intros H. apply String.compare_eq_iff in H. now subst.
Qed.

Lemma compare_antisym (a b : value) : Sql.compare a b = CompOpp (Sql.compare b a).
Proof. destruct a, b; simpl; try reflexivity. apply String.compare_antisym. Qed.

Lemma compare_lt_trans (a b c : value) :
  Sql.compare a b = Lt -> Sql.compare b c = Lt -> Sql.compare a c = Lt.
Proof.
  destruct a, b, c; simpl; try congruence. apply string_compare_lt_trans.
Qed.

Lemma order_key_antisym r1 r2 : order_key r1 r2 = CompOpp (order_key r2 r1).
Proof.
  unfold order_key.
  rewrite (compare_antisym (chr_data_release_year r1)).
  destruct (Sql.compare (chr_data_release_year r2) (chr_data_release_year r1)); simpl;
    [apply compare_antisym | reflexivity | reflexivity].
Qed.

Lemma order_key_lt_trans r1 r2 r3 :
  order_key r1 r2 = Lt -> order_key r2 r3 = Lt -> order_key r1 r3 = Lt.
Proof.
  unfold order_key.
  destruct (Sql.compare (chr_data_release_year r1) (chr_data_release_year r2)) eqn:H12;
    try discriminate;
    destruct (Sql.compare (chr_data_release_year r2) (chr_data_release_year r3)) eqn:H23;
    try discriminate; intros Ha Hb.
  - apply compare_eq in H12, H23. rewrite H12, H23, compare_refl.
    eapply compare_lt_trans; eauto.
  - apply compare_eq in H12. now rewrite H12, H23.
  - apply compare_eq in H23. now rewrite <- H23, H12.
  - now rewrite (compare_lt_trans _ _ _ H12 H23).
Qed.

Lemma order_key_eq_l r1 r2 r3 : order_key r1 r2 = Eq -> order_key r1 r3 = order_key r2 r3.
Proof.
  unfold order_key.
  destruct (Sql.compare (chr_data_release_year r1) (chr_data_release_year r2)) eqn:H12;
    try discriminate.
  intros H. apply compare_eq in H12, H. now rewrite H12, H.
Qed.

#[global] Instance key_le_total : Total key_le.
Proof.
  intros r1 r2. unfold key_le. rewrite (order_key_antisym r2 r1).
  destruct (order_key r1 r2); simpl; [left | left | right]; congruence.
Qed.

#[global] Instance key_le_trans : Transitive key_le.
Proof.
  intros r1 r2 r3. unfold key_le.
  destruct (order_key r1 r2) eqn:H12; [| |congruence]; intros _.
  - now rewrite (order_key_eq_l _ _ r3 H12).
  - destruct (order_key r2 r3) eqn:H23; [| |congruence]; intros _.
    + rewrite (order_key_antisym r1 r3).
      rewrite (order_key_antisym r2 r3) in H23.
      destruct (order_key r3 r2) eqn:H32; try discriminate.
      rewrite (order_key_eq_l _ _ r1 H32), (order_key_antisym r2 r1), H12. discriminate.
    + rewrite (order_key_lt_trans _ _ _ H12 H23). discriminate.
Qed.

End Ordering.
(** ** The query, clause by clause *)

Lemma holds_eq_Some (a : value) (s : string) : holds (Sql.eq a (Some s)) = true ↔ a = Some s.
Proof.
  destruct a as [x|]; simpl; [|split; discriminate].
  destruct (String.eqb_spec x s); split; congruence.
Qed.

Lemma holds_eq (a b : value) : holds (Sql.eq a b) = true ↔ ∃ s, a = Some s ∧ b = Some s.
Proof.
  destruct a as [x|], b as [y|]; simpl;
    try (split; [discriminate | intros (s & ? & ?); discriminate]).
  destruct (String.eqb_spec x y) as [->|Hne]; split; eauto;
    [discriminate | intros (s & ? & ?); congruence].
Qed.

Lemma holds_and3 p q : holds (and3 p q) = true ↔ holds p = true ∧ holds q = true.
Proof. destruct p as [[]|], q as [[]|]; simpl; intuition congruence. Qed.

Lemma holds_or3 p q : holds (or3 p q) = true ↔ holds p = true ∨ holds q = true.
Proof. destruct p as [[]|], q as [[]|]; simpl; intuition congruence. Qed.

Lemma holds_not_null_and_eq (a b : value) :
  holds (and3 (is_not_null a) (Sql.eq a b)) = true ↔ ∃ s, a = Some s ∧ b = Some s.
Proof.
  rewrite holds_and3, holds_eq. split; [tauto|].
  intros (s & -> & ->). split; [reflexivity | eauto].
Qed.

Lemma on_where_matches zip measure chr zc :
  holds (on_clause zip chr zc) = true ∧ holds (where_clause measure chr) = true
  ↔ matches chr_fipscode zip measure chr zc.
Proof.
  unfold on_clause, where_clause, matches.
  rewrite holds_and3, !holds_eq_Some, holds_or3, holds_not_null_and_eq, holds_and3, !holds_eq.
  split.
  - intros [[Hz [Hc | [(n & ? & ?) (s & ? & ?)]]] Hm]; split_and!; eauto 10.
  - intros (Hz & [Hc | (n & s & ? & ? & ? & ?)] & Hm); split_and!; eauto 10.
Qed.

Lemma query_elem_of db zip measure :
  returns_the_matches chr_fipscode db zip measure (query db zip measure).
Proof.
  intros r. unfold query, inner_join.
  rewrite merge_sort_Permutation, elem_of_remove_dups, list_elem_of_In, in_map_iff.
  split.
  - intros ([r' zc] & <- & Hin). simpl.
    apply filter_In in Hin as [Hin Hw]. apply filter_In in Hin as [Hin Ho].
    apply in_prod_iff in Hin as [Hr Hzc]. simpl in *.
    split; [now apply list_elem_of_In|].
    exists zc. split; [now apply list_elem_of_In|]. apply on_where_matches. auto.
  - intros [Hr (zc & Hzc & Hm)]. apply on_where_matches in Hm as [Ho Hw].
    exists (r, zc). split; [reflexivity|].
    rewrite !list_elem_of_In in *.
    apply filter_In. split; [|assumption].
    apply filter_In. split; [|assumption].
    apply in_prod_iff. auto.
Qed.

Lemma query_sorted db zip measure : StronglySorted key_le (query db zip measure).
Proof. apply StronglySorted_merge_sort; apply _. Qed.

Lemma query_NoDup db zip measure : NoDup (query db zip measure).
Proof.
  unfold query. rewrite merge_sort_Permutation. apply NoDup_remove_dups.
Qed.

(** ** The zip pattern and the validator *)

Lemma digits_spec n : ∀ s rest,
  Re.digits n s = Some rest ↔
  ∃ d, s = d ++ rest ∧ String.length d = n ∧
       forallb Re.is_digit (list_ascii_of_string d) = true.
Proof.
  induction n as [|n IH]; intros s rest; simpl.
  - split.
    + intros [= ->]. exists EmptyString. auto.
    + intros (d & -> & Hlen & _). destruct d; [reflexivity | discriminate].
  - destruct s as [|c s].
    + split; [discriminate|]. intros ([|c d] & Hs & Hlen & _); discriminate.
    + destruct (Re.is_digit c) eqn:Hc.
      * rewrite IH. split.
        -- intros (d & -> & Hlen & Hd). exists (String c d). simpl.
           rewrite Hc, Hlen. auto.
        -- intros ([|c' d] & Hs & Hlen & Hd); [discriminate|].
           simpl in *. injection Hs as -> ->. injection Hlen as Hlen.
           apply andb_true_iff in Hd as [_ Hd]. eauto.
      * split; [discriminate|].
        intros ([|c' d] & Hs & Hlen & Hd); [discriminate|].
        simpl in *. injection Hs as -> ->. rewrite Hc in Hd. discriminate.
Qed.

Lemma dollar_spec s : Re.dollar s = true ↔ s = EmptyString ∨ s = newline.
Proof.
  unfold newline. destruct s as [|c [|c' s]]; simpl.
  - tauto.
  - destruct (Ascii.eqb_spec c "010"%char) as [->|Hne].
    + split; auto.
    + split; [discriminate|].
      intros [H|H]; [discriminate | injection H as ->; contradiction].
  - split; [discriminate | intros [|]; discriminate].
Qed.

Lemma string_app_empty_r (s : string) : s ++ EmptyString = s.
Proof. induction s; simpl; congruence. Qed.

(** What the pattern accepts: five digits, optionally followed by one
    newline. *)
Lemma ZIP_PATTERN_match_spec s :
  ZIP_PATTERN_match s = true ↔
  ∃ d, five_ascii_digits d = true ∧ (s = d ∨ s = d ++ newline).
Proof.
  unfold ZIP_PATTERN_match, five_ascii_digits. split.
  - destruct (Re.digits 5 s) as [rest|] eqn:Hd; [|discriminate].
    apply digits_spec in Hd as (d & -> & Hlen & Hall).
    intros [-> | ->]%dollar_spec; exists d; rewrite Hlen, Hall;
      rewrite ?string_app_empty_r; auto.
  - intros (d & [Hlen%Nat.eqb_eq Hall]%andb_true_iff & Hs).
    assert (∃ rest, s = d ++ rest ∧ Re.dollar rest = true) as (rest & -> & Hr).
    { destruct Hs as [-> | ->]; [exists EmptyString | exists newline];
        rewrite ?string_app_empty_r; auto. }
    assert (Re.digits 5 (d ++ rest) = Some rest) as ->; [|assumption].
    apply digits_spec. eauto.
Qed.

Lemma five_ascii_digits_accepted s : five_ascii_digits s = true → ZIP_PATTERN_match s = true.
Proof. intros H. apply ZIP_PATTERN_match_spec. eauto. Qed.

(** The zip check of [validate_payload], in isolation. *)
Lemma validate_payload_zip (payload : gmap string pyval) z v :
  payload !! "zip" = Some (PStr z) → validate_payload payload = Return v →
  ZIP_PATTERN_match z = true ∧ zip v = z.
Proof.
  unfold validate_payload, dict_get. intros ->. simpl.
  destruct (is_none _); [discriminate|].
  destruct (ZIP_PATTERN_match z); simpl; [|discriminate].
  destruct (isinstance_str _); [|discriminate].
  case_bool_decide; [discriminate|]. intros [= <-]. auto.
Qed.

(** C2: the zip check accepts a string that is not five ASCII digits: five
    digits followed by a newline pass [ZIP_PATTERN] and reach the query
    unchanged. *)
Theorem C2_zip_with_trailing_newline_accepted :
  five_ascii_digits ("12345" ++ newline) = false ∧
  validate_payload {[ "zip" := PStr ("12345" ++ newline);
                      "measure_name" := PStr "Adult obesity" ]}
  = Return {| zip := "12345" ++ newline; measure_name := "Adult obesity" |}.
Proof. split; vm_compute; reflexivity. Qed.

Lemma ALLOWED_MEASURES_size : size ALLOWED_MEASURES = 12.
Proof. vm_compute. reflexivity. Qed.

(** C3: with a zip that passes its check, a string [measure_name] is
    accepted exactly when it is one of the twelve members of
    [ALLOWED_MEASURES], and any other string is refused with the
    unknown-measure message; a case variant of a member is not a member. *)
Theorem C3_measure_name_exact_membership (payload : gmap string pyval) (z m : string) :
  payload !! "zip" = Some (PStr z) →
  ZIP_PATTERN_match z = true →
  payload !! "measure_name" = Some (PStr m) →
  size ALLOWED_MEASURES = 12 ∧
  ("adult obesity" ∉ ALLOWED_MEASURES) ∧
  (m ∈ ALLOWED_MEASURES ↔
     (validate_payload payload = Return {| zip := z; measure_name := m |})) ∧
  (m ∉ ALLOWED_MEASURES ↔
     (validate_payload payload =
      Raise (Http (BadRequest "measure_name must be one of the documented measures")))).
Proof.
  intros Hz Hok Hm. split; [apply ALLOWED_MEASURES_size|].
  split.
  { apply (bool_decide_eq_false_1 ("adult obesity" ∈ ALLOWED_MEASURES)).
    vm_compute. reflexivity. }
  unfold validate_payload, dict_get. rewrite Hz, Hm. simpl. rewrite Hok. simpl.
  case_bool_decide as Hin; split; split; try congruence; tauto.
Qed.

Lemma C3_measure_name_exact_membership_witness :
  size ALLOWED_MEASURES = 12 ∧
  ("adult obesity" ∉ ALLOWED_MEASURES) ∧
  ("Uninsured" ∈ ALLOWED_MEASURES ↔
     (validate_payload {[ "zip" := PStr "02138"; "measure_name" := PStr "Uninsured" ]}
      = Return {| zip := "02138"; measure_name := "Uninsured" |})) ∧
  ("Uninsured" ∉ ALLOWED_MEASURES ↔
     (validate_payload {[ "zip" := PStr "02138"; "measure_name" := PStr "Uninsured" ]}
      = Raise (Http (BadRequest "measure_name must be one of the documented measures")))).
Proof.
  apply (C3_measure_name_exact_membership
           {[ "zip" := PStr "02138"; "measure_name" := PStr "Uninsured" ]}
           "02138" "Uninsured"); vm_compute; reflexivity.
Defined.

(** C10: a [zip] or [measure_name] key bound to [None] (JSON null) is
    refused with the both-fields-required message, served as a 400, and the
    payload is classified exactly as the payload without that key. *)
Theorem C10_null_field_is_missing_field (payload : gmap string pyval) (k : string) :
  k = "zip" ∨ k = "measure_name" →
  payload !! k = Some PNone →
  validate_payload payload =
    Raise (Http (BadRequest "Both 'zip' and 'measure_name' are required")) ∧
  validate_payload (delete k payload) = validate_payload payload ∧
  handle_http_exception (BadRequest "Both 'zip' and 'measure_name' are required") =
    {| status_code := 400;
       json := ErrorObject "Both 'zip' and 'measure_name' are required" |}.
Proof.
  intros Hk Hnull. split_and!; [| |reflexivity].
  - unfold validate_payload, dict_get.
    destruct Hk as [-> | ->]; rewrite Hnull; simpl; [reflexivity|].
    now rewrite orb_true_r.
  - unfold validate_payload, dict_get.
    destruct Hk as [-> | ->]; rewrite lookup_delete_eq, Hnull; simpl;
      [reflexivity | now rewrite !orb_true_r].
Qed.

Lemma C10_null_field_is_missing_field_witness :
  validate_payload {[ "zip" := PNone; "measure_name" := PStr "Uninsured" ]} =
    Raise (Http (BadRequest "Both 'zip' and 'measure_name' are required")) ∧
  validate_payload (delete "zip" {[ "zip" := PNone; "measure_name" := PStr "Uninsured" ]}) =
    validate_payload {[ "zip" := PNone; "measure_name" := PStr "Uninsured" ]} ∧
  handle_http_exception (BadRequest "Both 'zip' and 'measure_name' are required") =
    {| status_code := 400;
       json := ErrorObject "Both 'zip' and 'measure_name' are required" |}.
Proof.
  apply (C10_null_field_is_missing_field
           {[ "zip" := PNone; "measure_name" := PStr "Uninsured" ]} "zip");
    [left; reflexivity | vm_compute; reflexivity].
Defined.

(** C8, as the code has it: for a dict payload without the sentinel, with
    a zip that passes its check, a [measure_name] that is present, not
    [None] and not a string is refused by the validator with the message
    "measure_name must be a string", and the request is answered 400 with
    that message, whatever the store is and before it is touched. *)
Theorem C8_non_string_measure_name
    (w : deployment) (payload : gmap string pyval) (z : string) (x : pyval) :
  eq_str (dict_get payload "coffee") "teapot" = false →
  payload !! "zip" = Some (PStr z) →
  ZIP_PATTERN_match z = true →
  payload !! "measure_name" = Some x →
  x ≠ PNone →
  isinstance_str x = None →
  validate_payload payload = Raise (Http (BadRequest "measure_name must be a string")) ∧
  APP w (PDict payload) =
    ([ValidatePayload],
     {| status_code := 400; json := ErrorObject "measure_name must be a string" |}).
Proof.
  intros Hc Hz Hok Hm Hx Hstr.
  assert (validate_payload payload =
          Raise (Http (BadRequest "measure_name must be a string"))) as Hv.
  { unfold validate_payload, dict_get. rewrite Hz, Hm. simpl.
    rewrite Hok, Hstr. destruct x; simpl; congruence. }
  split; [assumption|].
  unfold APP, county_data. rewrite Hc.
  unfold lift, tick, raise, mbind, M_bind, bind, mret, M_ret, ret. simpl.
  rewrite Hv. reflexivity.
Qed.

Lemma C8_non_string_measure_name_witness :
  validate_payload {[ "zip" := PStr "02138"; "measure_name" := PInt 7 ]} =
    Raise (Http (BadRequest "measure_name must be a string")) ∧
  APP {| DB_PATH := "/srv/app/data.db"; data_db := None |}
      (PDict {[ "zip" := PStr "02138"; "measure_name" := PInt 7 ]}) =
    ([ValidatePayload],
     {| status_code := 400; json := ErrorObject "measure_name must be a string" |}).
Proof.
  apply (C8_non_string_measure_name
           {| DB_PATH := "/srv/app/data.db"; data_db := None |}
           {[ "zip" := PStr "02138"; "measure_name" := PInt 7 ]} "02138" (PInt 7));
    [vm_compute; reflexivity | vm_compute; reflexivity | vm_compute; reflexivity
    | vm_compute; reflexivity | discriminate | reflexivity].
Defined.

(** C8 as stated fails: an integer [measure_name] next to a valid zip is
    not answered with the unknown-measure message. *)
Lemma C8_counterexample :
  snd (APP {| DB_PATH := "/srv/app/data.db"; data_db := None |}
           (PDict {[ "zip" := PStr "02138"; "measure_name" := PInt 7 ]}))
  ≠ {| status_code := 400;
       json := ErrorObject "measure_name must be one of the documented measures" |}.
Proof. vm_compute. discriminate. Qed.

(** C9: a dict payload whose [coffee] key holds the string "teapot" is
    answered 418 with the teapot message, whatever else it holds and
    whatever the store is; no call is logged, so neither the validator nor
    the store has run. *)
Theorem C9_teapot_short_circuit (w : deployment) (d : gmap string pyval) :
  d !! "coffee" = Some (PStr "teapot") →
  APP w (PDict d) =
    ([], {| status_code := 418; json := ErrorObject "Request rejected: I'm a teapot." |}).
Proof.
  intros Hc. unfold APP, county_data, dict_get. rewrite Hc. reflexivity.
Qed.

Lemma C9_teapot_short_circuit_witness :
  APP {| DB_PATH := "/srv/app/data.db"; data_db := None |}
      (PDict {[ "coffee" := PStr "teapot"; "zip" := PInt 3 ]}) =
    ([], {| status_code := 418; json := ErrorObject "Request rejected: I'm a teapot." |}).
Proof.
  apply (C9_teapot_short_circuit
           {| DB_PATH := "/srv/app/data.db"; data_db := None |}
           {[ "coffee" := PStr "teapot"; "zip" := PInt 3 ]}).
  vm_compute. reflexivity.
Defined.

(** ** The lookup, by state of the store *)

Ltac run_M :=
  unfold lookup_county_data, get_connection, execute, lift, tick, raise,
    mbind, M_bind, bind, mret, M_ret, ret; simpl.

Lemma lookup_missing w zip_code measure log :
  data_db w = None →
  lookup_county_data w zip_code measure log =
    ((log ++ [PathExists])%list,
     Raise (Http (NotFound ("Database not found at " ++ DB_PATH w)))).
Proof. intros H. run_M. rewrite H. reflexivity. Qed.

Lemma lookup_unopenable w msg zip_code measure log :
  data_db w = Some (Unopenable msg) →
  lookup_county_data w zip_code measure log =
    ((log ++ [PathExists; Connect])%list, Raise (SqliteError msg)).
Proof. intros H. run_M. rewrite H. simpl. now rewrite <- app_assoc. Qed.

Lemma lookup_malformed w msg zip_code measure log :
  data_db w = Some (Malformed msg) →
  lookup_county_data w zip_code measure log =
    ((log ++ [PathExists; Connect; Execute zip_code measure])%list,
     Raise (SqliteError msg)).
Proof. intros H. run_M. rewrite H. simpl. now rewrite <- !app_assoc. Qed.

Lemma lookup_database w db zip_code measure log :
  data_db w = Some (Database db) →
  lookup_county_data w zip_code measure log =
    ((log ++ [PathExists; Connect; Execute zip_code measure])%list,
     Return (query db zip_code measure)).
Proof. intros H. run_M. rewrite H. simpl. now rewrite <- !app_assoc. Qed.

(** A lookup that returns has run the query on the two tables. *)
Lemma lookup_returns w zip_code measure log log' rows :
  lookup_county_data w zip_code measure log = (log', Return rows) →
  ∃ db, data_db w = Some (Database db) ∧ rows = query db zip_code measure.
Proof.
  destruct (data_db w) as [[msg|msg|db]|] eqn:Hw.
  - rewrite (lookup_unopenable _ _ _ _ _ Hw). discriminate.
  - rewrite (lookup_malformed _ _ _ _ _ Hw). discriminate.
  - rewrite (lookup_database _ _ _ _ _ Hw). intros [= _ <-]. eauto.
  - rewrite (lookup_missing _ _ _ _ Hw). discriminate.
Qed.

(** What the validator can raise. *)
Lemma validate_payload_raises (d : gmap string pyval) e :
  validate_payload d = Raise e →
  ∃ msg, e = Http (BadRequest msg) ∧
    msg ∈ [ "Both 'zip' and 'measure_name' are required";
            "zip must be a 5-digit string";
            "measure_name must be a string";
            "measure_name must be one of the documented measures" ].
Proof.
  unfold validate_payload.
  destruct (is_none _ || is_none _).
  { intros [= <-]. eexists. split; [reflexivity | set_solver]. }
  destruct (isinstance_str (dict_get d "zip")).
  2: { intros [= <-]. eexists. split; [reflexivity | set_solver]. }
  destruct (negb _).
  { intros [= <-]. eexists. split; [reflexivity | set_solver]. }
  destruct (isinstance_str (dict_get d "measure_name")).
  2: { intros [= <-]. eexists. split; [reflexivity | set_solver]. }
  case_bool_decide; [|discriminate].
  intros [= <-]. eexists. split; [reflexivity | set_solver].
Qed.

(** The view on a dict payload without the sentinel, once validated. *)
Lemma APP_validated w (d : gmap string pyval) v :
  eq_str (dict_get d "coffee") "teapot" = false →
  validate_payload d = Return v →
  APP w (PDict d) =
    match lookup_county_data w (zip v) (measure_name v) [ValidatePayload] with
    | (log, Return []) => (log, no_match_response)
    | (log, Return records) => (log, {| status_code := 200; json := RecordArray records |})
    | (log, Raise (Http error)) => (log, handle_http_exception error)
    | (log, Raise error) => (log, handle_unexpected_exception error)
    end.
Proof.
  intros Hc Hv. unfold APP, county_data. rewrite Hc.
  unfold lift, tick, raise, mbind, M_bind, bind, mret, M_ret, ret. simpl.
  rewrite Hv.
  destruct (lookup_county_data w (zip v) (measure_name v) [ValidatePayload])
    as [log [[|r rows]|[e|msg|msg]]]; reflexivity.
Qed.

Lemma APP_rejected w (d : gmap string pyval) msg :
  eq_str (dict_get d "coffee") "teapot" = false →
  validate_payload d = Raise (Http (BadRequest msg)) →
  APP w (PDict d) = ([ValidatePayload], handle_http_exception (BadRequest msg)).
Proof.
  intros Hc Hv. unfold APP, county_data. rewrite Hc.
  unfold lift, tick, raise, mbind, M_bind, bind, mret, M_ret, ret. simpl.
  rewrite Hv. reflexivity.
Qed.

(** ** The claims on the lookup and on the served responses *)

(** C5: with no file at [DB_PATH], every lookup raises the store-missing
    [NotFound] after the existence test alone, so no query is executed; and
    no request is then answered with the no-match response, or with a
    record array. *)
Theorem C5_missing_store_is_not_no_match
    (w : deployment) (zip_code measure : string) (log : list call) (payload : pyval) :
  data_db w = None →
  lookup_county_data w zip_code measure log =
    ((log ++ [PathExists])%list,
     Raise (Http (NotFound ("Database not found at " ++ DB_PATH w)))) ∧
  (∀ z m, Execute z m ∉ fst (APP w payload)) ∧
  snd (APP w payload) ≠ no_match_response ∧
  (∀ rows, json (snd (APP w payload)) ≠ RecordArray rows).
Proof.
  intros Hw. split; [now apply lookup_missing|].
  assert (∀ (l : list call) (r : Response),
            (∀ z m, ¬ In (Execute z m) l) → r ≠ no_match_response →
            (∀ rows, json r ≠ RecordArray rows) →
            (∀ z m, Execute z m ∉ fst (l, r)) ∧ snd (l, r) ≠ no_match_response ∧
            (∀ rows, json (snd (l, r)) ≠ RecordArray rows)) as Hpack.
  { intros l r Hl Hr Hj. split_and!; [|assumption..].
    intros z m. rewrite list_elem_of_In. apply Hl. }
  destruct payload as [| | | | | |d];
    try (unfold APP, county_data, raise; simpl;
         apply Hpack; [intros ? ? [] | discriminate | discriminate]).
  destruct (eq_str (dict_get d "coffee") "teapot") eqn:Hc.
  - unfold APP, county_data. rewrite Hc. unfold mret, M_ret, ret.
    apply Hpack; [intros ? ? [] | discriminate | discriminate].
  - destruct (validate_payload d) as [v|e] eqn:Hv.
    + rewrite (APP_validated _ _ _ Hc Hv), (lookup_missing _ _ _ _ Hw).
      apply Hpack; [|discriminate|discriminate].
      intros ? ?. simpl. intuition discriminate.
    + destruct (validate_payload_raises _ _ Hv) as (msg & -> & _).
      rewrite (APP_rejected _ _ _ Hc Hv).
      apply Hpack; [|discriminate|discriminate].
      intros ? ?. simpl. intuition discriminate.
Qed.

Lemma C5_missing_store_is_not_no_match_witness :
  let w := {| DB_PATH := "/srv/app/data.db"; data_db := None |} in
  let payload := PDict {[ "zip" := PStr "02138"; "measure_name" := PStr "Uninsured" ]} in
  lookup_county_data w "02138" "Uninsured" [ValidatePayload] =
    ([ValidatePayload; PathExists],
     Raise (Http (NotFound "Database not found at /srv/app/data.db"))) ∧
  (∀ z m, Execute z m ∉ fst (APP w payload)) ∧
  snd (APP w payload) ≠ no_match_response ∧
  (∀ rows, json (snd (APP w payload)) ≠ RecordArray rows).
Proof.
  intros w payload.
  apply (C5_missing_store_is_not_no_match w "02138" "Uninsured" [ValidatePayload] payload).
  reflexivity.
Defined.



(** The order of the rows, spelled out on the two sort columns. *)
Lemma key_le_lexicographic r1 r2 :
  key_le r1 r2 ↔
  Sql.compare (chr_data_release_year r1) (chr_data_release_year r2) = Lt ∨
  (chr_data_release_year r1 = chr_data_release_year r2 ∧
   Sql.compare (chr_year_span r1) (chr_year_span r2) ≠ Gt).
Proof.
  unfold key_le, order_key.
  destruct (Sql.compare (chr_data_release_year r1) (chr_data_release_year r2)) eqn:Hy.
  - apply compare_eq in Hy. split; [auto | intros [[=]|[_ ?]]; assumption].
  - split; [auto | discriminate].
  - split; [congruence|]. intros [[=]|[Heq _]].
    rewrite Heq, compare_refl in Hy. discriminate.
Qed.

(** C1, as the code has it: on a store holding the two tables, the lookup
    runs one query and returns exactly the records of
    [county_health_rankings] for which some [zip_county] row has the input
    zip, is tied to the record by the record's non-null [fipscode] equal to
    the row's county code or by equal county name and state abbreviation,
    and whose measure is the input measure; the rows come in ascending
    order of (data_release_year, year_span). *)
Theorem C1_lookup_returns_fipscode_matches_in_order
    (w : deployment) (db : database) (zip_code measure : string) (log : list call) :
  data_db w = Some (Database db) →
  ∃ rows,
    lookup_county_data w zip_code measure log =
      ((log ++ [PathExists; Connect; Execute zip_code measure])%list, Return rows) ∧
    returns_the_matches chr_fipscode db zip_code measure rows ∧
    StronglySorted key_le rows.
Proof.
  intros Hw. exists (query db zip_code measure).
  split_and!; [now apply lookup_database | apply query_elem_of | apply query_sorted].
Qed.

Lemma C1_lookup_returns_fipscode_matches_in_order_witness :
  ∃ rows,
    lookup_county_data (deployed cambridge_db) "02138" "Adult obesity" [] =
      ([PathExists; Connect; Execute "02138" "Adult obesity"], Return rows) ∧
    returns_the_matches chr_fipscode cambridge_db "02138" "Adult obesity" rows ∧
    StronglySorted key_le rows.
Proof.
  apply (C1_lookup_returns_fipscode_matches_in_order
           (deployed cambridge_db) cambridge_db "02138" "Adult obesity" []).
  reflexivity.
Defined.

(** C1 as stated fails when the record's [county_code] column is read as
    the join key: a record whose [fipscode] equals the mapping's county
    code is returned although its [county_code] differs from it and the
    county names differ. *)
Lemma C1_counterexample :
  ∃ rows,
    lookup_county_data (deployed short_name_db) "02138" "Adult obesity" [] =
      ([PathExists; Connect; Execute "02138" "Adult obesity"], Return rows) ∧
    ¬ returns_the_matches chr_county_code short_name_db "02138" "Adult obesity" rows.
Proof.
  exists [middlesex "2010" "Adult obesity" "2014"].
  split; [vm_compute; reflexivity|].
  intros H. destruct (H (middlesex "2010" "Adult obesity" "2014")) as [Hin _].
  destruct Hin as [_ (zc & Hzc & _ & Hkey & _)]; [left|].
  apply list_elem_of_In in Hzc. destruct Hzc as [<-|[]].
  destruct Hkey as [(c & Hc & Hc') | (n & s & Hn & Hn' & _)]; simpl in *; congruence.
Qed.

(** C4, as the code has it: for a dict payload without the sentinel that
    passes validation, on a store holding the two tables, an empty query
    result is answered 404 with the error "No matching records found", and
    a non-empty one 200 with the array of those records. *)
Theorem C4_empty_result_404_else_200
    (w : deployment) (db : database) (d : gmap string pyval) (v : ValidatedRequest) :
  data_db w = Some (Database db) →
  eq_str (dict_get d "coffee") "teapot" = false →
  validate_payload d = Return v →
  snd (APP w (PDict d)) =
    match query db (zip v) (measure_name v) with
    | [] => {| status_code := 404; json := ErrorObject "No matching records found" |}
    | records => {| status_code := 200; json := RecordArray records |}
    end.
Proof.
  intros Hw Hc Hv.
  rewrite (APP_validated _ _ _ Hc Hv), (lookup_database _ _ _ _ _ Hw).
  destruct (query db (zip v) (measure_name v)); reflexivity.
Qed.

Lemma C4_empty_result_404_else_200_witness :
  snd (APP (deployed cambridge_db) (request "00000" "Adult obesity")) =
    match query cambridge_db "00000" "Adult obesity" with
    | [] => {| status_code := 404; json := ErrorObject "No matching records found" |}
    | records => {| status_code := 200; json := RecordArray records |}
    end.
Proof.
  apply (C4_empty_result_404_else_200 (deployed cambridge_db) cambridge_db
           {[ "zip" := PStr "00000"; "measure_name" := PStr "Adult obesity" ]}
           {| zip := "00000"; measure_name := "Adult obesity" |});
    vm_compute; reflexivity.
Defined.

(** C4 as stated fails on the body: the empty result of a valid request is
    not answered with the error text "no matching records". *)
Lemma C4_counterexample :
  query cambridge_db "00000" "Adult obesity" = [] ∧
  snd (APP (deployed cambridge_db) (request "00000" "Adult obesity"))
  ≠ {| status_code := 404; json := ErrorObject "no matching records" |}.
Proof. split; [vm_compute; reflexivity | vm_compute; discriminate]. Qed.

Lemma str_or_nonempty a b : b ≠ EmptyString → str_or a b ≠ EmptyString.
Proof. destruct a; simpl; [auto | discriminate]. Qed.

Ltac in_list := apply list_elem_of_In; simpl; tauto.




(** * Further properties of [api/index.py] *)

(** ** The validator *)

(** X1: [validate_payload] succeeds exactly when [zip] is bound to a string
    the pattern accepts and [measure_name] to a string of
    [ALLOWED_MEASURES]; the two strings are returned as they came. *)
Theorem validate_payload_accepts_iff (payload : gmap string pyval) (v : ValidatedRequest) :
  validate_payload payload = Return v ↔
  payload !! "zip" = Some (PStr (zip v)) ∧
  ZIP_PATTERN_match (zip v) = true ∧
  payload !! "measure_name" = Some (PStr (measure_name v)) ∧
  measure_name v ∈ ALLOWED_MEASURES.
Proof.
  unfold validate_payload, dict_get. split.
  - destruct (payload !! "zip") as [[| | | |z| |]|]; simpl; try discriminate;
      destruct (payload !! "measure_name") as [[| | | |m| |]|]; simpl; try discriminate;
      destruct (ZIP_PATTERN_match z) eqn:Hz; simpl; try discriminate.
    case_bool_decide as Hm; [discriminate|]. intros [= <-]. simpl.
    split_and!; try reflexivity; [assumption|].
    destruct (decide (m ∈ ALLOWED_MEASURES)); tauto.
  - destruct v as [z m]. simpl. intros (-> & Hz & -> & Hm). simpl.
    rewrite Hz. simpl. case_bool_decide; [contradiction | reflexivity].
Qed.

(** X2: keys other than [zip] and [measure_name] play no part in
    validation: binding or removing one leaves the outcome as it was. *)
Theorem validate_payload_ignores_other_keys
    (payload : gmap string pyval) (k : string) (x : pyval) :
  k ≠ "zip" → k ≠ "measure_name" →
  validate_payload (<[k := x]> payload) = validate_payload payload ∧
  validate_payload (delete k payload) = validate_payload payload.
Proof.
  intros Hz Hm. unfold validate_payload, dict_get.
  rewrite !lookup_insert_ne, !lookup_delete_ne by congruence. split; reflexivity.
Qed.

Lemma validate_payload_ignores_other_keys_witness :
  validate_payload (<["coffee" := PStr "tea"]> {[ "zip" := PStr "02138" ]}) =
    validate_payload {[ "zip" := PStr "02138" ]} ∧
  validate_payload (delete "coffee" {[ "zip" := PStr "02138" ]}) =
    validate_payload {[ "zip" := PStr "02138" ]}.
Proof.
  apply (validate_payload_ignores_other_keys {[ "zip" := PStr "02138" ]} "coffee" (PStr "tea"));
    discriminate.
Defined.

(** X3: the both-fields-required error is raised exactly when [zip] or
    [measure_name] is absent or bound to [None]; in particular it wins over
    every complaint about the other field. *)
Theorem validate_payload_missing_iff (payload : gmap string pyval) :
  validate_payload payload =
    Raise (Http (BadRequest "Both 'zip' and 'measure_name' are required")) ↔
  payload !! "zip" = None ∨ payload !! "zip" = Some PNone ∨
  payload !! "measure_name" = None ∨ payload !! "measure_name" = Some PNone.
Proof.
  unfold validate_payload, dict_get. split.
  - destruct (payload !! "zip") as [[| | | |z| |]|]; simpl; auto;
      destruct (payload !! "measure_name") as [[| | | |m| |]|]; simpl; auto;
      try discriminate;
      destruct (ZIP_PATTERN_match z); simpl; try discriminate.
    case_bool_decide; discriminate.
  - intros [-> | [-> | [-> | ->]]]; simpl; try reflexivity;
      destruct (payload !! "zip") as [[]|]; reflexivity.
Qed.

(** X4: once both fields are present and not [None], the zip error is
    raised exactly when [zip] is not a string the pattern accepts, whatever
    [measure_name] holds: the zip is checked before the measure. *)
Theorem validate_payload_zip_error_iff (payload : gmap string pyval) :
  dict_get payload "zip" ≠ PNone → dict_get payload "measure_name" ≠ PNone →
  (validate_payload payload = Raise (Http (BadRequest "zip must be a 5-digit string")) ↔
   ∀ z, payload !! "zip" = Some (PStr z) → ZIP_PATTERN_match z = false).
Proof.
  unfold validate_payload, dict_get. intros Hz Hm.
  destruct (payload !! "zip") as [[| | | |z| |]|]; simpl in *; try congruence;
    destruct (payload !! "measure_name") as [[| | | |m| |]|]; simpl in *; try congruence;
    try (split; [intros _ ? [=] | reflexivity]);
    destruct (ZIP_PATTERN_match z) eqn:Hok; simpl;
    try (split; [intros _ ? [= <-]; assumption | reflexivity]);
    try (split; [discriminate | intros Hall; specialize (Hall z eq_refl); congruence]).
  case_bool_decide; split; try discriminate;
    intros Hall; specialize (Hall z eq_refl); congruence.
Qed.

Lemma validate_payload_zip_error_iff_witness :
  validate_payload {[ "zip" := PInt 2138; "measure_name" := PInt 0 ]} =
    Raise (Http (BadRequest "zip must be a 5-digit string")) ↔
  ∀ z, ({[ "zip" := PInt 2138; "measure_name" := PInt 0 ]} : gmap string pyval) !! "zip"
       = Some (PStr z) → ZIP_PATTERN_match z = false.
Proof.
  apply (validate_payload_zip_error_iff {[ "zip" := PInt 2138; "measure_name" := PInt 0 ]});
    vm_compute; discriminate.
Defined.

(** X5: a zip of exactly five ASCII digits, leading zeros included, next to
    a measure of [ALLOWED_MEASURES] is accepted and returned unchanged. *)
Theorem validate_payload_accepts_five_digits
    (payload : gmap string pyval) (z m : string) :
  payload !! "zip" = Some (PStr z) →
  payload !! "measure_name" = Some (PStr m) →
  five_ascii_digits z = true →
  m ∈ ALLOWED_MEASURES →
  validate_payload payload = Return {| zip := z; measure_name := m |}.
Proof.
  intros Hz Hm Hd Hin. unfold validate_payload, dict_get. rewrite Hz, Hm. simpl.
  assert (ZIP_PATTERN_match z = true) as ->.
  { apply ZIP_PATTERN_match_spec. eauto. }
  simpl. case_bool_decide; [contradiction | reflexivity].
Qed.

Lemma validate_payload_accepts_five_digits_witness :
  validate_payload {[ "zip" := PStr "00501"; "measure_name" := PStr "Unemployment" ]} =
    Return {| zip := "00501"; measure_name := "Unemployment" |}.
Proof.
  apply (validate_payload_accepts_five_digits
           {[ "zip" := PStr "00501"; "measure_name" := PStr "Unemployment" ]}
           "00501" "Unemployment");
    [vm_compute; reflexivity | vm_compute; reflexivity | vm_compute; reflexivity |].
  apply (bool_decide_eq_true_1 ("Unemployment" ∈ ALLOWED_MEASURES)).
  vm_compute. reflexivity.
Defined.

(** ** The view and the handlers *)

(** X6: a payload that is JSON but not an object (a list, a string, a
    number, a boolean) is not refused as a bad request: [.get] fails on it,
    and the catch-all handler answers 500 with Python's attribute error;
    nothing has been called by then. *)
Theorem non_object_payload_is_500 (w : deployment) (payload : pyval) :
  payload ≠ PNone → (∀ d, payload ≠ PDict d) →
  APP w payload =
    ([], {| status_code := 500;
            json := ErrorObject ("'" ++ type_name payload ++
                                 "' object has no attribute 'get'") |}).
Proof.
  intros Hnone Hdict.
  destruct payload as [| | | | | |d]; try reflexivity; [congruence|].
  now destruct (Hdict d).
Qed.

Lemma non_object_payload_is_500_witness :
  APP not_deployed (PList [PStr "02138"; PStr "Adult obesity"]) =
    ([], {| status_code := 500;
            json := ErrorObject "'list' object has no attribute 'get'" |}).
Proof.
  apply (non_object_payload_is_500 not_deployed (PList [PStr "02138"; PStr "Adult obesity"]));
    [discriminate | intros d; discriminate].
Defined.

(** X7: status 200 and a record array go together, and only for a dict
    payload that passed validation against a store holding the tables: the
    array is then the query's result for the validated pair, and it is
    never empty. *)
Theorem record_array_iff_200 (w : deployment) (payload : pyval) :
  (status_code (snd (APP w payload)) = 200%Z ↔
   ∃ rows, json (snd (APP w payload)) = RecordArray rows) ∧
  ∀ rows, json (snd (APP w payload)) = RecordArray rows →
    rows ≠ [] ∧
    ∃ d v db, payload = PDict d ∧ validate_payload d = Return v ∧
              data_db w = Some (Database db) ∧
              rows = query db (zip v) (measure_name v).
Proof.
  assert (∀ r : Response,
            status_code r ≠ 200%Z → (∀ rows, json r ≠ RecordArray rows) →
            (status_code r = 200%Z ↔ ∃ rows, json r = RecordArray rows) ∧
            ∀ rows, json r = RecordArray rows →
              rows ≠ [] ∧
              ∃ d v db, payload = PDict d ∧ validate_payload d = Return v ∧
                        data_db w = Some (Database db) ∧
                        rows = query db (zip v) (measure_name v)) as Herr.
  { intros r Hs Hj. split; [split; [contradiction | intros [rows ?]; now destruct (Hj rows)]|].
    intros rows ?. now destruct (Hj rows). }
  destruct payload as [| | | | | |d];
    try (apply Herr; [discriminate | discriminate]).
  destruct (eq_str (dict_get d "coffee") "teapot") eqn:Hc.
  { unfold APP, county_data. rewrite Hc. apply Herr; discriminate. }
  destruct (validate_payload d) as [v|e] eqn:Hv.
  2: { destruct (validate_payload_raises _ _ Hv) as (m & -> & _).
       rewrite (APP_rejected _ _ _ Hc Hv). apply Herr; discriminate. }
  rewrite (APP_validated _ _ _ Hc Hv).
  destruct (data_db w) as [[dm|dm|db]|] eqn:Hw.
  - rewrite (lookup_unopenable _ _ _ _ _ Hw). apply Herr; discriminate.
  - rewrite (lookup_malformed _ _ _ _ _ Hw). apply Herr; discriminate.
  - rewrite (lookup_database _ _ _ _ _ Hw).
    destruct (query db (zip v) (measure_name v)) as [|r rows] eqn:Hq;
      [apply Herr; discriminate|].
    simpl. split; [split; eauto|].
    intros rows' [= <-]. split; [discriminate|].
    exists d, v, db. rewrite Hq. auto.
  - rewrite (lookup_missing _ _ _ _ Hw). apply Herr; discriminate.
Qed.

(** X8: the calls of one request follow one line, validation, existence
    test, connection, query, and stop at the first failure: a payload that
    fails validation never reaches the store, and the only query ever
    executed carries the validated zip and measure. *)
Theorem calls_follow_validation (w : deployment) (d : gmap string pyval) :
  (∀ e, validate_payload d = Raise e →
        fst (APP w (PDict d)) `prefix_of` [ValidatePayload]) ∧
  (∀ v, validate_payload d = Return v →
        fst (APP w (PDict d)) `prefix_of`
          [ValidatePayload; PathExists; Connect; Execute (zip v) (measure_name v)]).
Proof.
  destruct (eq_str (dict_get d "coffee") "teapot") eqn:Hc.
  { unfold APP, county_data. rewrite Hc. split; intros; apply prefix_nil. }
  split.
  - intros e Hv. destruct (validate_payload_raises _ _ Hv) as (m & -> & _).
    now rewrite (APP_rejected _ _ _ Hc Hv).
  - intros v Hv. rewrite (APP_validated _ _ _ Hc Hv).
    destruct (data_db w) as [[dm|dm|db]|] eqn:Hw.
    + rewrite (lookup_unopenable _ _ _ _ _ Hw). simpl.
      now exists [Execute (zip v) (measure_name v)].
    + rewrite (lookup_malformed _ _ _ _ _ Hw). reflexivity.
    + rewrite (lookup_database _ _ _ _ _ Hw).
      destruct (query db (zip v) (measure_name v)); reflexivity.
    + rewrite (lookup_missing _ _ _ _ Hw). simpl.
      now exists [Connect; Execute (zip v) (measure_name v)].
Qed.

(** X9: when the store file is there but the driver fails, on opening it
    or on running the query, a valid request is answered 500 with the
    driver's own message, or with "Internal server error" when that
    message is empty. *)
Theorem driver_failure_is_500
    (w : deployment) (d : gmap string pyval) (v : ValidatedRequest) (driver_message : string) :
  eq_str (dict_get d "coffee") "teapot" = false →
  validate_payload d = Return v →
  data_db w = Some (Unopenable driver_message) ∨
  data_db w = Some (Malformed driver_message) →
  snd (APP w (PDict d)) =
    {| status_code := 500;
       json := ErrorObject (match driver_message with
                            | EmptyString => "Internal server error"
                            | _ => driver_message
                            end) |}.
Proof.
  intros Hc Hv [Hw | Hw]; rewrite (APP_validated _ _ _ Hc Hv).
  - rewrite (lookup_unopenable _ _ _ _ _ Hw). reflexivity.
  - rewrite (lookup_malformed _ _ _ _ _ Hw). reflexivity.
Qed.

Lemma driver_failure_is_500_witness :
  snd (APP {| DB_PATH := "/srv/app/data.db"; data_db := Some (Malformed EmptyString) |}
           (request "02138" "Adult obesity")) =
    {| status_code := 500; json := ErrorObject "Internal server error" |}.
Proof.
  apply (driver_failure_is_500
           {| DB_PATH := "/srv/app/data.db"; data_db := Some (Malformed EmptyString) |}
           {[ "zip" := PStr "02138"; "measure_name" := PStr "Adult obesity" ]}
           {| zip := "02138"; measure_name := "Adult obesity" |} EmptyString);
    [vm_compute; reflexivity | vm_compute; reflexivity | right; reflexivity].
Defined.

(** ** The query *)

(** X10: the result depends on the tables only as sets of rows, and on
    [zip_county] only through the rows of the requested zip: two stores
    that agree there return the same records, each once, whatever the
    order, the repetitions and the other zips stored. Records that tie on
    (data_release_year, year_span) may come in a different order. *)
Theorem query_depends_on_row_sets (db db' : database) (zip_code measure : string) :
  (∀ r, r ∈ county_health_rankings db ↔ r ∈ county_health_rankings db') →
  (∀ zc, zc_zip zc = Some zip_code → zc ∈ zip_county db ↔ zc ∈ zip_county db') →
  query db zip_code measure ≡ₚ query db' zip_code measure.
Proof.
  intros Hchr Hzc. apply NoDup_Permutation; try apply query_NoDup.
  intros r. rewrite (query_elem_of db zip_code measure r),
                    (query_elem_of db' zip_code measure r), Hchr.
  split; intros [Hr (zc & Hin & Hm)]; (split; [assumption|]);
    exists zc; (split; [|assumption]); destruct Hm as [Hz _];
    now apply (Hzc zc Hz).
Qed.

Lemma query_depends_on_row_sets_witness :
  query cambridge_db "02138" "Adult obesity" ≡ₚ
  query {| county_health_rankings :=
             [ middlesex "2009" "Unemployment" "2013";
               middlesex "2009" "Adult obesity" "2013";
               middlesex "2010" "Adult obesity" "2014";
               middlesex "2009" "Adult obesity" "2013" ];
           zip_county :=
             [ to_middlesex "02139" "Middlesex County";
               to_middlesex "02138" "Middlesex County" ] |}
        "02138" "Adult obesity".
Proof.
  apply query_depends_on_row_sets.
  - intros r. rewrite !list_elem_of_In. simpl. tauto.
  - intros zc Hz. rewrite !list_elem_of_In. simpl.
    split; [tauto|]. intros [<- | [<- | []]]; [discriminate | tauto].
Defined.

(** X11: [NULL] never matches, not even [NULL]: a record whose [fipscode]
    is [NULL] and whose county or state is [NULL] is returned for no zip
    and no measure, whatever the mapping rows hold. *)
Theorem null_keys_never_match (db : database) (zip_code measure : string) (r : HealthRecord) :
  chr_fipscode r = None →
  chr_county r = None ∨ chr_state r = None →
  r ∉ query db zip_code measure.
Proof.
  intros Hf Hn Hin. apply query_elem_of in Hin as [_ (zc & _ & _ & Hkey & _)].
  destruct Hkey as [(c & Hc & _) | (n & s & Hcounty & _ & Hstate & _)];
    [congruence|]. destruct Hn; congruence.
Qed.

Lemma null_keys_never_match_witness :
  unkeyed ∉ query {| county_health_rankings := [unkeyed];
                     zip_county := [ {| zc_zip := Some "02138";
                                        zc_county := None;
                                        zc_state_abbreviation := Some "MA";
                                        zc_county_code := None |} ] |}
                  "02138" "Adult obesity".
Proof.
  apply null_keys_never_match; [reflexivity | left; reflexivity].
Defined.

(** X12: a zip with no row in [zip_county] finds nothing, so a valid
    request for it is answered 404 with "No matching records found",
    whatever the health records are. *)
Theorem unmapped_zip_is_404
    (w : deployment) (db : database) (d : gmap string pyval) (v : ValidatedRequest) :
  data_db w = Some (Database db) →
  eq_str (dict_get d "coffee") "teapot" = false →
  validate_payload d = Return v →
  (∀ zc, zc ∈ zip_county db → zc_zip zc ≠ Some (zip v)) →
  query db (zip v) (measure_name v) = [] ∧
  snd (APP w (PDict d)) =
    {| status_code := 404; json := ErrorObject "No matching records found" |}.
Proof.
  intros Hw Hc Hv Hnone.
  assert (query db (zip v) (measure_name v) = []) as Hq.
  { destruct (query db (zip v) (measure_name v)) as [|r rows] eqn:Hq; [reflexivity|].
    assert (r ∈ query db (zip v) (measure_name v)) as Hin by (rewrite Hq; left).
    apply query_elem_of in Hin as [_ (zc & Hzc & Hz & _)].
    now destruct (Hnone zc Hzc). }
  split; [assumption|].
  rewrite (APP_validated _ _ _ Hc Hv), (lookup_database _ _ _ _ _ Hw), Hq.
  reflexivity.
Qed.

Lemma unmapped_zip_is_404_witness :
  query cambridge_db "00000" "Adult obesity" = [] ∧
  snd (APP (deployed cambridge_db) (PDict {[ "zip" := PStr "00000";
                                             "measure_name" := PStr "Adult obesity" ]})) =
    {| status_code := 404; json := ErrorObject "No matching records found" |}.
Proof.
  apply (unmapped_zip_is_404 (deployed cambridge_db) cambridge_db
           {[ "zip" := PStr "00000"; "measure_name" := PStr "Adult obesity" ]}
           {| zip := "00000"; measure_name := "Adult obesity" |});
    [reflexivity | vm_compute; reflexivity | vm_compute; reflexivity |].
  intros zc Hzc. apply list_elem_of_In in Hzc. simpl in Hzc.
  destruct Hzc as [<- | [<- | []]]; discriminate.
Defined.

(** * Properties of [csv_to_sqlite.py] *)

Import CsvToSqlite.

Section Stripping.

Local Open Scope N_scope.
Local Open Scope list_scope.

Lemma lstrip_split p s : ∃ pre, s = pre ++ lstrip p s ∧ forallb p pre = true.
Proof.
  induction s as [|c s (pre & Hs & Hpre)]; simpl.
  - exists []. auto.
  - destruct (p c) eqn:Hc.
    + exists (c :: pre). simpl. rewrite Hc, Hpre. split; [now f_equal | reflexivity].
    + exists []. auto.
Qed.

Lemma lstrip_head p s c : head (lstrip p s) = Some c → p c = false.
Proof.
  induction s as [|a s IH]; simpl; [discriminate|].
  destruct (p a) eqn:Ha; [assumption|]. simpl. congruence.
Qed.

Lemma lstrip_all p s : forallb p s = true → lstrip p s = [].
Proof.
  induction s as [|c s IH]; simpl; [reflexivity|].
  destruct (p c); simpl; [assumption | discriminate].
Qed.

Lemma lstrip_app_all p pre s : forallb p pre = true → lstrip p (pre ++ s) = lstrip p s.
Proof.
  induction pre as [|c pre IH]; simpl; [reflexivity|].
  destruct (p c); simpl; [assumption | discriminate].
Qed.

Lemma lstrip_stop p s c : head s = Some c → p c = false → lstrip p s = s.
Proof. destruct s as [|a s]; simpl; [discriminate|]. intros [= ->] ->. reflexivity. Qed.

Lemma lstrip_last p s : lstrip p s ≠ [] → last (lstrip p s) = last s.
Proof.
  intros Hne. destruct (lstrip_split p s) as (pre & Hs & _).
  rewrite Hs at 2. rewrite last_app.
  destruct (last (lstrip p s)) eqn:Hl; [reflexivity|].
  now apply last_None in Hl.
Qed.

Lemma rstrip_last p s c : last (rstrip p s) = Some c → p c = false.
Proof. unfold rstrip. rewrite last_reverse. apply lstrip_head. Qed.

Lemma rstrip_app_all p s post : forallb p post = true → rstrip p (s ++ post) = rstrip p s.
Proof.
  intros Hp. unfold rstrip. rewrite reverse_app, lstrip_app_all; [reflexivity|].
  rewrite forallb_forall in *. intros x Hx. apply Hp.
  apply list_elem_of_In. apply list_elem_of_In in Hx.
  rewrite elem_of_reverse in Hx. exact Hx.
Qed.

Lemma rstrip_stop p s c : last s = Some c → p c = false → rstrip p s = s.
Proof.
  intros Hl Hc. unfold rstrip.
  rewrite (lstrip_stop p (reverse s) c); [apply reverse_involutive | | assumption].
  now rewrite head_reverse.
Qed.

Lemma strip_last_not_space s c : last (strip s) = Some c → is_space c = false.
Proof. apply rstrip_last. Qed.

Lemma ident_char_bounds c : is_ident_char c = true → 48 ≤ c ≤ 122.
Proof.
  unfold is_ident_char, is_ident_start.
  rewrite !orb_true_iff, !andb_true_iff, !N.leb_le, N.eqb_eq. lia.
Qed.

Lemma ident_char_not_space c : is_ident_char c = true → is_space c = false.
Proof.
  intros Hb%ident_char_bounds. unfold is_space.
  rewrite (proj2 (N.leb_gt c 13)), (proj2 (N.leb_gt c 32)),
    (proj2 (N.leb_gt 8192 c)), !andb_false_r by lia.
  rewrite !(proj2 (N.eqb_neq c _)) by lia. reflexivity.
Qed.

Lemma ident_char_not_BOM c : is_ident_char c = true → (BOM =? c) = false.
Proof. intros Hb%ident_char_bounds. apply N.eqb_neq. unfold BOM. lia. Qed.

Lemma ident_start_char c : is_ident_start c = true → is_ident_char c = true.
Proof. unfold is_ident_char. now intros ->. Qed.

End Stripping.

Section Identifiers.

Local Open Scope N_scope.
Local Open Scope list_scope.

Variable lower : ustr → ustr.

(** What is used of [str.lower()]: it leaves alone a string of lowercase
    ASCII letters, digits and underscores, and the empty string, and it
    does not bring a newline to the end of a string that had none. *)
Hypothesis lower_safe : ∀ s, safe_identifier s = true → lower s = s.
Hypothesis lower_nil : lower [] = [].
Hypothesis lower_last : ∀ s, last (lower s) = Some LF → last s = Some LF.

Lemma safe_identifier_match s : safe_identifier s = true → VALID_IDENTIFIER_match s = true.
Proof.
  destruct s as [|c rest]; simpl; [discriminate|].
  intros [-> Hrest]%andb_true_iff. now rewrite (lstrip_all _ _ Hrest).
Qed.

Lemma match_safe_identifier s :
  VALID_IDENTIFIER_match s = true → last s ≠ Some LF → safe_identifier s = true.
Proof.
  destruct s as [|c rest]; simpl; [discriminate|].
  intros [Hc Hd]%andb_true_iff Hlast. rewrite Hc. simpl.
  destruct (lstrip_split is_ident_char rest) as (pre & Hrest & Hpre).
  destruct (lstrip is_ident_char rest) as [|a [|b tail]]; simpl in Hd; try discriminate.
  - rewrite app_nil_r in Hrest. now subst.
  - apply N.eqb_eq in Hd. subst a. destruct Hlast.
    rewrite Hrest. change (c :: pre ++ [LF]) with ((c :: pre) ++ [LF]).
    apply last_snoc.
Qed.

Lemma normalize_identifier_last raw : last (normalize_identifier lower raw) ≠ Some LF.
Proof.
  unfold normalize_identifier. intros Hl%lower_last.
  assert (lstrip (N.eqb BOM) (strip raw) ≠ []) as Hne.
  { intros Heq. rewrite Heq in Hl. discriminate. }
  rewrite (lstrip_last _ _ Hne) in Hl.
  apply strip_last_not_space in Hl. discriminate.
Qed.

Lemma validate_identifier_Ok raw kind v :
  validate_identifier lower raw kind = Ok v →
  v = normalize_identifier lower raw ∧ safe_identifier v = true.
Proof.
  unfold validate_identifier.
  pose proof (normalize_identifier_last raw) as Hlast.
  destruct (normalize_identifier lower raw) as [|c rest] eqn:Hn; [discriminate|].
  destruct (VALID_IDENTIFIER_match (c :: rest)) eqn:Hm; simpl; [|discriminate].
  intros [= <-]. split; [reflexivity|]. now apply match_safe_identifier.
Qed.

Lemma strip_padded ws1 s ws2 c1 c2 :
  forallb is_space ws1 = true → forallb is_space ws2 = true →
  head s = Some c1 → is_space c1 = false →
  last s = Some c2 → is_space c2 = false →
  strip (ws1 ++ s ++ ws2) = s.
Proof.
  intros H1 H2 Hh Hc1 Hl Hc2. unfold strip.
  rewrite (lstrip_app_all _ _ _ H1).
  rewrite (lstrip_stop is_space (s ++ ws2) c1); [| |assumption].
  - rewrite (rstrip_app_all _ _ _ H2). now apply (rstrip_stop _ _ c2).
  - rewrite head_app, Hh. reflexivity.
Qed.

Lemma strip_blank ws : forallb is_space ws = true → strip ws = [].
Proof. intros H. unfold strip. now rewrite (lstrip_all _ _ H). Qed.

Lemma safe_identifier_ends v :
  safe_identifier v = true →
  ∃ c1 c2, head v = Some c1 ∧ last v = Some c2 ∧
           is_ident_char c1 = true ∧ is_ident_char c2 = true.
Proof.
  destruct v as [|c rest]; simpl; [discriminate|].
  intros [Hc Hrest]%andb_true_iff. apply ident_start_char in Hc.
  destruct (last (c :: rest)) as [c2|] eqn:Hl.
  - exists c, c2. split_and!; try reflexivity; [assumption|].
    apply last_Some_elem_of in Hl. apply elem_of_cons in Hl as [-> | Hin]; [assumption|].
    rewrite forallb_forall in Hrest. apply Hrest. now apply list_elem_of_In.
  - now apply last_None in Hl.
Qed.

Lemma padded_identifier_accepted ws1 boms v ws2 kind :
  forallb is_space ws1 = true → forallb (N.eqb BOM) boms = true →
  forallb is_space ws2 = true → safe_identifier v = true →
  validate_identifier lower (ws1 ++ boms ++ v ++ ws2) kind = Ok v.
Proof.
  intros H1 Hb H2 Hv.
  destruct (safe_identifier_ends v Hv) as (c1 & c2 & Hh & Hl & Hc1 & Hc2).
  assert (∃ b, head (boms ++ v) = Some b ∧ is_space b = false) as (b & Hhb & Hsb).
  { destruct boms as [|b boms].
    - exists c1. split; [assumption | now apply ident_char_not_space].
    - exists b. split; [reflexivity|]. cbn [forallb] in Hb.
      apply andb_true_iff in Hb as [Hb' _]. apply N.eqb_eq in Hb'. now subst b. }
  assert (normalize_identifier lower (ws1 ++ boms ++ v ++ ws2) = v) as Hn.
  { unfold normalize_identifier.
    rewrite (app_assoc boms v ws2).
    rewrite (strip_padded ws1 (boms ++ v) ws2 b c2 H1 H2 Hhb Hsb).
    - rewrite (lstrip_app_all _ _ _ Hb).
      rewrite (lstrip_stop _ v c1 Hh (ident_char_not_BOM _ Hc1)).
      now apply lower_safe.
    - rewrite last_app, Hl. reflexivity.
    - now apply ident_char_not_space. }
  unfold validate_identifier. rewrite Hn.
  destruct v as [|c rest]; [discriminate|].
  now rewrite (safe_identifier_match _ Hv).
Qed.

(** X13: a name [validate_identifier] accepts is its input normalized, and
    is safe to splice into SQL text: it starts with a lowercase ASCII
    letter or an underscore and goes on with lowercase ASCII letters,
    digits and underscores, with no trailing newline left by [$]. Validating
    it again, as any kind of name, returns it unchanged. *)
Theorem validate_identifier_returns_safe (raw kind kind' v : ustr) :
  validate_identifier lower raw kind = Ok v →
  v = normalize_identifier lower raw ∧
  safe_identifier v = true ∧
  validate_identifier lower v kind' = Ok v.
Proof.
  intros [Hn Hs]%validate_identifier_Ok. split_and!; [assumption..|].
  pose proof (padded_identifier_accepted [] [] v [] kind') as H.
  simpl in H. rewrite app_nil_r in H. now apply H.
Qed.

(** X14: white space around a safe identifier, and byte-order marks right
    before it, are dropped: the identifier itself is what is accepted. *)
Theorem validate_identifier_drops_padding (ws1 boms v ws2 kind : ustr) :
  forallb is_space ws1 = true → forallb (N.eqb BOM) boms = true →
  forallb is_space ws2 = true → safe_identifier v = true →
  validate_identifier lower (ws1 ++ boms ++ v ++ ws2) kind = Ok v.
Proof. apply padded_identifier_accepted. Qed.

(** X15: a name made of white space and byte-order marks alone, the empty
    name included, is refused as empty, and the message quotes the name as
    it was given. *)
Theorem validate_identifier_blank (ws1 boms ws2 kind : ustr) :
  forallb is_space ws1 = true → forallb (N.eqb BOM) boms = true →
  forallb is_space ws2 = true →
  validate_identifier lower (ws1 ++ boms ++ ws2) kind =
    ValueError (kind ++ u " '" ++ (ws1 ++ boms ++ ws2) ++
                u "' is empty after stripping whitespace").
Proof.
  intros H1 Hb H2.
  assert (normalize_identifier lower (ws1 ++ boms ++ ws2) = []) as Hn.
  { unfold normalize_identifier.
    assert (lstrip (N.eqb BOM) (strip (ws1 ++ boms ++ ws2)) = []) as ->;
      [|apply lower_nil].
    destruct boms as [|b boms].
    - simpl. rewrite strip_blank; [reflexivity|].
      rewrite forallb_app. now rewrite H1, H2.
    - assert (b = BOM) as ->.
      { pose proof Hb as Hb'. cbn [forallb] in Hb'.
        apply andb_true_iff in Hb' as [Hb' _]. apply N.eqb_eq in Hb'. now subst b. }
      destruct (last (BOM :: boms)) as [c|] eqn:Hl; [|now apply last_None in Hl].
      assert (c = BOM) as ->.
      { apply last_Some_elem_of in Hl. rewrite forallb_forall in Hb.
        apply list_elem_of_In, Hb, N.eqb_eq in Hl. congruence. }
      rewrite (strip_padded ws1 (BOM :: boms) ws2 BOM BOM); auto.
      now apply lstrip_all. }
  unfold validate_identifier. now rewrite Hn.
Qed.

Lemma validate_columns_Ok header columns :
  validate_columns lower header = Ok columns →
  Forall2 (fun col c => c = normalize_identifier lower col ∧ safe_identifier c = true)
          header columns.
Proof.
  revert columns. induction header as [|col rest IH]; simpl; intros columns.
  - intros [= <-]. constructor.
  - destruct (validate_identifier lower col (u "Column name")) as [c|msg] eqn:Hc;
      [|discriminate].
    destruct (validate_columns lower rest) as [cs|msg]; [|discriminate].
    intros [= <-]. constructor; [|now apply IH].
    now apply validate_identifier_Ok in Hc.
Qed.

(** X16: when the load goes through, the file had a header record, and the
    connection is asked three things in order: the drop-and-create script,
    one insert statement with all the data records as its bound
    parameters, unchanged, and the commit. The table name and the column
    names spliced into the two SQL texts are the normalized stem and header
    cells, one column per cell in the header's order, and each is a safe
    identifier. *)
Theorem load_csv_to_sqlite_Ok (stem : ustr) (records : list (list ustr))
    (calls : list db_call) :
  load_csv_to_sqlite lower stem records = Ok calls →
  ∃ table_name header rows columns,
    records = header :: rows ∧
    table_name = normalize_identifier lower stem ∧
    safe_identifier table_name = true ∧
    Forall2 (fun col c => c = normalize_identifier lower col ∧ safe_identifier c = true)
            header columns ∧
    calls = [ create_table table_name columns;
              insert_rows table_name columns rows;
              Commit ].
Proof.
  unfold load_csv_to_sqlite.
  destruct (validate_identifier lower stem (u "Table name")) as [t|msg] eqn:Ht;
    [|discriminate].
  destruct records as [|header rows]; [discriminate|].
  destruct (validate_columns lower header) as [cols|msg] eqn:Hc; [|discriminate].
  intros [= <-]. apply validate_identifier_Ok in Ht as [-> Hs].
  apply validate_columns_Ok in Hc. eauto 10.
Qed.

(** X17: the load reports the first failure in program order and asks
    nothing of the connection: a bad table name wins over everything in
    the file, an empty file over its missing header, and among the header
    cells the first one that does not validate. *)
Theorem load_csv_to_sqlite_first_failure (stem : ustr) :
  (∀ msg records,
     validate_identifier lower stem (u "Table name") = ValueError msg →
     load_csv_to_sqlite lower stem records = ValueError msg) ∧
  (∀ table_name,
     validate_identifier lower stem (u "Table name") = Ok table_name →
     load_csv_to_sqlite lower stem [] = ValueError (u "CSV file is empty")) ∧
  (∀ table_name good bad rest rows msg,
     validate_identifier lower stem (u "Table name") = Ok table_name →
     Forall (fun col => ∃ c, validate_identifier lower col (u "Column name") = Ok c) good →
     validate_identifier lower bad (u "Column name") = ValueError msg →
     load_csv_to_sqlite lower stem ((good ++ bad :: rest) :: rows) = ValueError msg).
Proof.
  unfold load_csv_to_sqlite. split_and!.
  - intros msg records ->. reflexivity.
  - intros t ->. reflexivity.
  - intros t good bad rest rows msg -> Hgood Hbad.
    assert (validate_columns lower (good ++ bad :: rest) = ValueError msg) as ->;
      [|reflexivity].
    induction Hgood as [|col good [c Hc] _ IH]; simpl.
    + now rewrite Hbad.
    + now rewrite Hc, IH.
Qed.

End Identifiers.

Section Statements.

Local Open Scope N_scope.
Local Open Scope list_scope.

Abbreviation marks s := (count_occ N.eq_dec s QUESTION_MARK).

Lemma safe_identifier_chars s : safe_identifier s = true → forallb is_ident_char s = true.
Proof.
  destruct s as [|c rest]; simpl; [discriminate|].
  intros [Hc ->]%andb_true_iff. now rewrite (ident_start_char _ Hc).
Qed.

Lemma safe_identifier_no_mark s : safe_identifier s = true → marks s = 0%nat.
Proof.
  intros Hall%safe_identifier_chars.
  induction s as [|a l IH]; [reflexivity|].
  cbn [forallb] in Hall. apply andb_true_iff in Hall as [Ha Hl].
  cbn [count_occ].
  destruct (N.eq_dec a QUESTION_MARK) as [->|_]; [discriminate Ha|].
  now apply IH.
Qed.

Lemma marks_join (parts : list ustr) :
  marks (join (u ", ") parts) = list_sum (List.map (fun p => marks p) parts).
Proof.
  induction parts as [|p [|q rest] IH].
  - reflexivity.
  - simpl. lia.
  - change (join (u ", ") (p :: q :: rest)) with (p ++ u ", " ++ join (u ", ") (q :: rest)).
    rewrite !count_occ_app, IH.
    change (marks (u ", ")) with 0%nat. simpl. lia.
Qed.

(** X18: the insert statement built for safe identifiers holds exactly one
    [?] per column, so each data record is bound against as many
    parameters as the header has cells. *)
Theorem insert_sql_one_placeholder_per_column (table_name : ustr) (columns : list ustr) :
  safe_identifier table_name = true →
  Forall (fun c => safe_identifier c = true) columns →
  count_occ N.eq_dec (insert_sql table_name columns) QUESTION_MARK = length columns.
Proof.
  intros Ht Hcols. unfold insert_sql.
  rewrite !count_occ_app, !marks_join, (safe_identifier_no_mark _ Ht).
  change (marks (u "INSERT INTO ")) with 0%nat.
  change (marks (u " (")) with 0%nat.
  change (marks (u ") VALUES (")) with 0%nat.
  change (marks (u ");")) with 0%nat.
  induction Hcols as [|c cols Hc _ IH]; [reflexivity|].
  simpl in *. rewrite (safe_identifier_no_mark _ Hc). lia.
Qed.

End Statements.

(** What the properties ask of [str.lower()] holds of [ascii_lower]. *)

Lemma ascii_lower_safe s : safe_identifier s = true → ascii_lower s = s.
Proof.
  intros Hall%safe_identifier_chars. unfold ascii_lower.
  induction s as [|a l IH]; [reflexivity|].
  cbn [forallb] in Hall. apply andb_true_iff in Hall as [Ha Hl].
  cbn [List.map]. rewrite (IH Hl). f_equal.
  unfold is_ident_char, is_ident_start in Ha.
  rewrite !orb_true_iff, !andb_true_iff, !N.leb_le, N.eqb_eq in Ha.
  destruct (N.leb_spec 65 a); destruct (N.leb_spec a 90); simpl; try reflexivity.
  lia.
Qed.

Lemma ascii_lower_last s : last (ascii_lower s) = Some LF → last s = Some LF.
Proof.
  unfold ascii_lower. destruct (last s) as [c|] eqn:Hl.
  - apply last_Some in Hl as [l ->]. rewrite List.map_app. simpl. rewrite last_snoc.
    destruct (N.leb_spec 65 c); destruct (N.leb_spec c 90); simpl; try congruence.
    intros [= H']. unfold LF in *. lia.
  - apply last_None in Hl as ->. discriminate.
Qed.

Lemma validate_identifier_returns_safe_witness :
  u "zip_county" = normalize_identifier ascii_lower (u " Zip_County ") ∧
  safe_identifier (u "zip_county") = true ∧
  validate_identifier ascii_lower (u "zip_county") (u "Column name") = Ok (u "zip_county").
Proof.
  apply (validate_identifier_returns_safe ascii_lower ascii_lower_safe ascii_lower_last
           (u " Zip_County ") (u "Table name") (u "Column name") (u "zip_county")).
  vm_compute. reflexivity.
Defined.

Lemma validate_identifier_drops_padding_witness :
  validate_identifier ascii_lower
    ((u " " ++ [BOM] ++ u "state" ++ [LF])%list) (u "Column name") = Ok (u "state").
Proof.
  apply (validate_identifier_drops_padding ascii_lower ascii_lower_safe
           (u " ") [BOM] (u "state") [LF] (u "Column name"));
    vm_compute; reflexivity.
Defined.

Lemma validate_identifier_blank_witness :
  validate_identifier ascii_lower ((u "  " ++ [BOM] ++ [])%list) (u "Column name") =
    ValueError ((u "Column name" ++ u " '" ++ (u "  " ++ [BOM] ++ []) ++
                 u "' is empty after stripping whitespace")%list).
Proof.
  apply (validate_identifier_blank ascii_lower eq_refl (u "  ") [BOM] [] (u "Column name"));
    vm_compute; reflexivity.
Defined.

Lemma load_csv_to_sqlite_Ok_witness :
  ∃ table_name header rows columns,
    [[u "Zip"; u " County "]; [u "02138"; u "Middlesex County"]] = header :: rows ∧
    table_name = normalize_identifier ascii_lower (u "zip_county") ∧
    safe_identifier table_name = true ∧
    Forall2 (fun col c => c = normalize_identifier ascii_lower col ∧ safe_identifier c = true)
            header columns ∧
    [ create_table (u "zip_county") [u "zip"; u "county"];
      insert_rows (u "zip_county") [u "zip"; u "county"] [[u "02138"; u "Middlesex County"]];
      Commit ]
    = [ create_table table_name columns;
        insert_rows table_name columns rows;
        Commit ].
Proof.
  apply (load_csv_to_sqlite_Ok ascii_lower ascii_lower_last (u "zip_county")
           [[u "Zip"; u " County "]; [u "02138"; u "Middlesex County"]]).
  vm_compute. reflexivity.
Defined.

Lemma insert_sql_one_placeholder_per_column_witness :
  count_occ N.eq_dec (insert_sql (u "zip_county") [u "zip"; u "county"]) QUESTION_MARK
  = length [u "zip"; u "county"].
Proof.
  apply (insert_sql_one_placeholder_per_column (u "zip_county") [u "zip"; u "county"]);
    [vm_compute; reflexivity | repeat constructor].
Defined.
